(** * Trend finder: the record extractor and the report sink

    A shallow embedding of [PrintifyTrendFinder.extract_opportunities] and
    [PrintifyTrendFinder.save_to_sheets] (src/printify_trend_finder.py),
    together with the Python string operations they call, and of their
    callers: [find_trending_topics], [analyze_niche_opportunities] and
    [run_daily_research].

    Conventions of the embedding:
    - a Python [str] is a [string]: a sequence of code points below 256;
      [is_space], [is_int_space] and [digit_value] are CPython's tables
      restricted to that range;
    - a Python expression that can raise is a value of [exc]; [try]/[except]
      is [try_except];
    - [print] in [run_daily_research] raises when the console cannot encode
      its line ([print_line]); the other lines printed are ASCII literals
      and texts of exceptions, and are taken to be printable;
    - a record ([current_opp]) is a Python [dict] with [str] keys: a
      [gmap string pyval];
    - the clock, the console and the spreadsheet service are the [world]
      that [save_to_sheets] threads through. *)

From stdpp Require Import gmap strings list fin_maps.
From Stdlib Require Import Ascii ZArith Lia.

Local Open Scope nat_scope.

(** ** Exceptions *)

Inductive exception := IndexError | ValueError | HttpError.

Inductive exc (A : Type) : Type :=
  | Ok (a : A)
  | Raise (e : exception).
Arguments Ok {A} a.
Arguments Raise {A} e.

Definition bind {A B} (m : exc A) (f : A → exc B) : exc B :=
  match m with
  | Ok a => f a
  | Raise e => Raise e
  end.

Notation "m >>= f" := (bind m f) (at level 50, left associativity).
Notation "'let*' x := m 'in' k" := (bind m (λ x, k))
  (at level 10, x pattern, m at level 100, k at level 200).

(** [try: body except: handler] with a bare [except]. *)
Definition try_except {A} (body : exc A) (handler : exception → exc A) : exc A :=
  match body with
  | Ok a => Ok a
  | Raise e => handler e
  end.

(** [l[i]] for a non-negative index. *)
Definition item {A} (i : nat) (l : list A) : exc A :=
  match l !! i with
  | Some x => Ok x
  | None => Raise IndexError
  end.

(** ** Python [str] operations *)

Module Py.

Definition LF : string := String "010"%char "".

(** [str.isspace] on one code point below 256: TAB..CR, FS..US, space, NEL
    and the no-break space. *)
Definition is_space (c : ascii) : bool :=
  let n := N_of_ascii c in
  ((9 <=? n) && (n <=? 13) || (28 <=? n) && (n <=? 32) || (n =? 133) || (n =? 160))%N.

(** What [int] skips around a literal: the white space of C for ASCII,
    [str.isspace] above it. *)
Definition is_int_space (c : ascii) : bool :=
  let n := N_of_ascii c in
  ((9 <=? n) && (n <=? 13) || (n =? 32) || (n =? 133) || (n =? 160))%N.

Fixpoint lstrip_by (space : ascii → bool) (s : string) : string :=
  match s with
  | "" => ""
  | String c s' => if space c then lstrip_by space s' else s
  end.

Fixpoint rstrip_by (space : ascii → bool) (s : string) : string :=
  match s with
  | "" => ""
  | String c s' =>
      match rstrip_by space s' with
      | "" => if space c then "" else String c ""
      | r => String c r
      end
  end.

(** [s.strip()] *)
Definition strip (s : string) : string := rstrip_by is_space (lstrip_by is_space s).

(** [s.startswith(p)] *)
Definition startswith (s p : string) : bool := String.prefix p s.

(** [s[:i]] and [s[i:]] for a non-negative [i]. *)
Fixpoint slice_to (i : nat) (s : string) : string :=
  match i, s with
  | S i', String c s' => String c (slice_to i' s')
  | _, _ => ""
  end.

Fixpoint slice_from (i : nat) (s : string) : string :=
  match i, s with
  | S i', String _ s' => slice_from i' s'
  | _, _ => s
  end.

(** [s.find(sub)]: the lowest index at which [sub] occurs in [s]. *)
Fixpoint find (s sub : string) : option nat :=
  if String.prefix sub s then Some 0
  else match s with
       | "" => None
       | String _ s' => S <$> find s' sub
       end.

(** [sub in s] *)
Definition contains (sub s : string) : bool :=
  match find s sub with
  | Some _ => true
  | None => false
  end.

(** [s.split(sep, maxsplit)] for a non-empty [sep]: cut at the leftmost
    occurrence, at most [maxsplit] times. *)
Fixpoint split_max (maxsplit : nat) (s sep : string) : list string :=
  match maxsplit with
  | 0 => [s]
  | S k =>
      match find s sep with
      | None => [s]
      | Some i => slice_to i s :: split_max k (slice_from (i + String.length sep) s) sep
      end
  end.

(** [s.split(sep)]: no limit on the number of cuts; a string of length [n]
    holds at most [n] occurrences of a non-empty separator (see
    [split_max_enough]). An empty separator is a [ValueError]. *)
Definition split (sep s : string) : exc (list string) :=
  if decide (sep = "") then Raise ValueError
  else Ok (split_max (String.length s) s sep).

(** The two sides of the first occurrence of [sep], as [s.partition(sep)]
    gives them: all of [s] and the empty string when [sep] does not occur. *)
Definition before (sep s : string) : string :=
  match find s sep with
  | Some i => slice_to i s
  | None => s
  end.

Definition after (sep s : string) : string :=
  match find s sep with
  | Some i => slice_from (i + String.length sep) s
  | None => ""
  end.

(** *** [int(s)] in base 10 *)

Definition digit_value (c : ascii) : option Z :=
  let n := Z.of_N (N_of_ascii c) in
  if ((48 <=? n) && (n <=? 57))%Z then Some (n - 48)%Z else None.

(** The rest of a literal after a digit: digits, each preceded by at most
    one underscore. Returns the value and the number of digits read. *)
Fixpoint int_digits (s : string) (acc : Z) (n : nat) : option (Z * nat) :=
  match s with
  | "" => Some (acc, n)
  | String "_" (String c s') =>
      d ← digit_value c; int_digits s' (10 * acc + d)%Z (S n)
  | String c s' =>
      d ← digit_value c; int_digits s' (10 * acc + d)%Z (S n)
  end.

Definition int_literal (s : string) : option (Z * nat) :=
  match s with
  | "" => None
  | String c s' => d ← digit_value c; int_digits s' d 1
  end.

(** [int(s)]: white space around, an optional sign, then the literal;
    anything else, or too many digits, is a [ValueError].
    [int_max_str_digits] is [sys.get_int_max_str_digits()]: 4300 by default
    since CPython 3.11, 0 when the limit is off or the interpreter has
    none; literals of up to 640 digits are never refused. *)
Definition int (int_max_str_digits : nat) (s : string) : exc Z :=
  let t := rstrip_by is_int_space (lstrip_by is_int_space s) in
  let '(negative, body) :=
    match t with
    | String "+" b => (false, b)
    | String "-" b => (true, b)
    | _ => (false, t)
    end in
  match int_literal body with
  | Some (v, n) =>
      if (640 <? n) && (0 <? int_max_str_digits) && (int_max_str_digits <? n)
      then Raise ValueError
      else Ok (if negative then (- v)%Z else v)
  | None => Raise ValueError
  end.

End Py.

Import Py.

(** ** The class [PrintifyTrendFinder] *)

(** A value stored in a record or written to a spreadsheet cell. *)
Inductive pyval :=
  | VStr (s : string)
  | VInt (z : Z).

#[global] Instance pyval_eq_dec : EqDecision pyval.
Proof. solve_decision. Defined.

(** The configuration [__init__] reads from the environment; the two
    service clients are part of the [world] below. *)
Record PrintifyTrendFinder := {
  sheet_id : string;
  serper_key : option string;
  target_audiences : list string;
  product_types : list string
}.

(** Truth value of a [dict]: false exactly when it is empty. *)
Definition dict_truthy (d : gmap string pyval) : bool :=
  bool_decide (d ≠ ∅).

(** [for x in xs: body], the loop state threaded through. *)
Fixpoint for_each {A S} (body : A → S → exc S) (xs : list A) (s : S) : exc S :=
  match xs with
  | [] => Ok s
  | x :: xs' => let* s' := body x s in for_each body xs' s'
  end.

Section Extractor.

Variable int_max_str_digits : nat.

(** Line 144: the test that opens a new record. *)
Definition is_boundary (section : string) : bool :=
  contains "NICHE NAME:" section
  || startswith (strip section) "1."
  || startswith (strip section) "2.".

(** Lines 145-147 and again 175-176: a non-empty record is appended to the
    list and a new, empty one is started. *)
Definition flush (st : gmap string pyval * list (gmap string pyval))
  : gmap string pyval * list (gmap string pyval) :=
  let '(current_opp, opportunities) := st in
  if dict_truthy current_opp then (∅, opportunities ++ [current_opp])
  else (current_opp, opportunities).

(** Lines 159-163: the demand score of a section that holds its label. *)
Definition demand_score (section : string) : exc pyval :=
  let* line := split "DEMAND SCORE:" section >>= item 1 >>= split LF >>= item 0 in
  let score_text := strip line in
  try_except
    (let* head := split "/" score_text >>= item 0 in
     let* n := int int_max_str_digits (strip head) in
     Ok (VInt n))
    (λ _, Ok (VInt 5)).

(** Lines 150-173: the [if]/[elif] chain. *)
Definition extract_fields (section : string) (current_opp : gmap string pyval)
  : exc (gmap string pyval) :=
  if contains "NICHE NAME:" section then
    let* v := split "NICHE NAME:" section >>= item 1 >>= split LF >>= item 0 in
    Ok (<["niche" := VStr (strip v)]> current_opp)
  else if contains "TARGET AUDIENCE:" section then
    let* v := split "TARGET AUDIENCE:" section >>= item 1 >>= split LF >>= item 0 in
    Ok (<["audience" := VStr (strip v)]> current_opp)
  else if contains "DESIGN THEME:" section then
    let* v := split "DESIGN THEME:" section >>= item 1 >>= split LF >>= item 0 in
    Ok (<["design_theme" := VStr (strip v)]> current_opp)
  else if contains "PRODUCTS:" section then
    let* v := split "PRODUCTS:" section >>= item 1 >>= split LF >>= item 0 in
    Ok (<["products" := VStr (strip v)]> current_opp)
  else if contains "DEMAND SCORE:" section then
    let* v := demand_score section in
    Ok (<["demand_score" := v]> current_opp)
  else if contains "COMPETITION:" section then
    let* v := split "COMPETITION:" section >>= item 1 >>= split LF >>= item 0 in
    Ok (<["competition" := VStr (strip v)]> current_opp)
  else if contains "DESIGN EXAMPLES:" section then
    let* v := split "DESIGN EXAMPLES:" section >>= item 1 >>= split "WHY IT WORKS:" >>= item 0 in
    Ok (<["design_examples" := VStr (strip v)]> current_opp)
  else if contains "WHY IT WORKS:" section then
    let* v := split "WHY IT WORKS:" section >>= item 1 >>= split "FACEBOOK AD ANGLE:" >>= item 0 in
    Ok (<["why_works" := VStr (strip v)]> current_opp)
  else if contains "FACEBOOK AD ANGLE:" section then
    let* v := split "FACEBOOK AD ANGLE:" section >>= item 1
          >>= split "ESTIMATED MONTHLY REVENUE:" >>= item 0 in
    Ok (<["ad_angle" := VStr (strip v)]> current_opp)
  else if contains "ESTIMATED MONTHLY REVENUE:" section then
    let* v := split "ESTIMATED MONTHLY REVENUE:" section >>= item 1 in
    Ok (<["est_revenue" := VStr (strip v)]> current_opp)
  else Ok current_opp.

(** Lines 143-173: one iteration of the loop over the sections. *)
Definition loop_body (section : string)
    (st : gmap string pyval * list (gmap string pyval))
  : exc (gmap string pyval * list (gmap string pyval)) :=
  let '(current_opp, opportunities) :=
    if is_boundary section then flush st else st in
  let* current_opp := extract_fields section current_opp in
  Ok (current_opp, opportunities).

(** Lines 142-178: the loop over the sections and the last flush. *)
Definition records_of (sections : list string) : exc (list (gmap string pyval)) :=
  let* st := for_each loop_body sections (∅, []) in
  Ok (flush st).2.

(** Lines 135-178. *)
Definition extract_opportunities (self : PrintifyTrendFinder) (analysis_text : string)
  : exc (list (gmap string pyval)) :=
  let* sections := split (LF +:+ LF) analysis_text in
  records_of sections.

(** The sections that follow a record either are none or open with a
    boundary. *)
Definition starts_record (sections : list string) : bool :=
  match sections with
  | [] => true
  | b :: _ => is_boundary b
  end.

(** *** Views used in the proofs *)

(** Lines 160-163 as a function: the parsed integer, or 5. *)
Definition int_or_5 (s : string) : Z :=
  match int int_max_str_digits s with
  | Ok n => n
  | Raise _ => 5%Z
  end.

(** The keys a section sets, read off [extract_fields] on an empty record. *)
Definition fields (section : string) : gmap string pyval :=
  match extract_fields section ∅ with
  | Ok d => d
  | Raise _ => ∅
  end.

(** One iteration, as a function on the loop state. *)
Definition step (st : gmap string pyval * list (gmap string pyval)) (section : string)
  : gmap string pyval * list (gmap string pyval) :=
  let '(current_opp, opportunities) :=
    if is_boundary section then flush st else st in
  (fields section ∪ current_opp, opportunities).

End Extractor.

(** *** The demand score in the words of the specification *)

(** The recipe as the specification words it, to be compared with
    [demand_score]: everything after the label up to the next line break,
    stripped, then what comes before a slash if there is one, parsed as an
    integer, and 5 when that fails. *)
Definition spec_demand_score (int_max_str_digits : nat) (section : string) : Z :=
  let score_text := strip (before LF (after "DEMAND SCORE:" section)) in
  match int int_max_str_digits (before "/" score_text) with
  | Ok n => n
  | Raise _ => 5%Z
  end.

(** ** The report sink and its world *)

(** One [spreadsheets().values().append(...).execute()] request. *)
Record append_call := {
  call_spreadsheet : string;
  call_range : string;
  call_values : list (list pyval)
}.

(** What [print] writes; the formatted text is not modelled. *)
Inductive console_line :=
  | NoOpportunitiesToSave
  | Saved (n : nat)
  | ErrorSavingToSheets (e : exception).

(** The world outside the process: how often the clock was read, the append
    requests sent so far (oldest first), each with whether the service
    accepted it, and the console. *)
Record world := {
  clock_reads : nat;
  appends : list (append_call * bool);
  console : list console_line
}.

Definition io (A : Type) : Type := world → exc A * world.

Definition io_ret {A} (a : A) : io A := λ w, (Ok a, w).

Definition io_bind {A B} (m : io A) (f : A → io B) : io B := λ w,
  match m w with
  | (Ok a, w') => f a w'
  | (Raise e, w') => (Raise e, w')
  end.

Notation "'do*' x := m 'in' k" := (io_bind m (λ x, k))
  (at level 10, x pattern, m at level 100, k at level 200).
Notation "m ;;; k" := (io_bind m (λ _, k))
  (at level 100, k at level 200, right associativity).

(** [try: body except Exception as e: handler e] *)
Definition io_try {A} (body : io A) (handler : exception → io A) : io A := λ w,
  match body w with
  | (Ok a, w') => (Ok a, w')
  | (Raise e, w') => handler e w'
  end.

Definition print (l : console_line) : io unit := λ w,
  (Ok tt, {| clock_reads := clock_reads w; appends := appends w;
             console := console w ++ [l] |}).

(** [for x in xs: ys.append(body x)] *)
Fixpoint io_map {A B} (body : A → io B) (xs : list A) : io (list B) :=
  match xs with
  | [] => io_ret []
  | x :: xs' =>
      do* y := body x in
      do* ys := io_map body xs' in
      io_ret (y :: ys)
  end.

Section Sink.

(** [strftime_now n] is [datetime.now().strftime('%Y-%m-%d %H:%M:%S')] at
    the [n]-th reading of the clock. *)
Variable strftime_now : nat → string.

(** [execute_ok history call]: whether the service accepts [call] after the
    requests in [history]; otherwise [execute()] raises. *)
Variable execute_ok : list (append_call * bool) → append_call → bool.

Definition now : io string := λ w,
  (Ok (strftime_now (clock_reads w)),
   {| clock_reads := S (clock_reads w); appends := appends w;
      console := console w |}).

Definition values_append (spreadsheetId range : string) (values : list (list pyval))
  : io unit := λ w,
  let call := {| call_spreadsheet := spreadsheetId; call_range := range;
                 call_values := values |} in
  let accepted := execute_ok (appends w) call in
  let w' := {| clock_reads := clock_reads w;
               appends := appends w ++ [(call, accepted)];
               console := console w |} in
  if accepted then (Ok tt, w') else (Raise HttpError, w').

(** [opp.get(key, default)] *)
Definition get (opp : gmap string pyval) (key : string) (default : pyval) : pyval :=
  match opp !! key with
  | Some v => v
  | None => default
  end.

(** Lines 189-203: the row of one record. *)
Definition opportunity_row (opp : gmap string pyval) : io (list pyval) :=
  do* timestamp := now in
  io_ret [ VStr timestamp;
           get opp "niche" (VStr "");
           get opp "audience" (VStr "");
           get opp "design_theme" (VStr "");
           get opp "products" (VStr "");
           get opp "demand_score" (VInt 5);
           get opp "competition" (VStr "Medium");
           get opp "design_examples" (VStr "");
           get opp "why_works" (VStr "");
           get opp "ad_angle" (VStr "");
           get opp "est_revenue" (VStr "");
           VStr "Not started";
           VStr "" ].

(** Lines 180-230. *)
Definition save_to_sheets (self : PrintifyTrendFinder)
    (opportunities : list (gmap string pyval)) (raw_analysis : string) : io unit :=
  if bool_decide (sheet_id self = "") || bool_decide (opportunities = []) then
    print NoOpportunitiesToSave
  else
    io_try
      (do* rows := io_map opportunity_row opportunities in
       values_append (sheet_id self) "Opportunities!A:M" rows ;;;
       print (Saved (length rows)) ;;;
       do* timestamp := now in
       let raw_row := [[VStr timestamp; VStr raw_analysis]] in
       values_append (sheet_id self) "Analysis!A:B" raw_row)
      (λ e, print (ErrorSavingToSheets e)).

End Sink.

(** ** Sample values for the closed examples *)

Definition bot : PrintifyTrendFinder :=
  {| sheet_id := "sheet-1";
     serper_key := None;
     target_audiences := ["millennials"; "gen z"];
     product_types := ["t-shirt"; "hoodie"; "mug"] |}.

Definition fresh_world : world :=
  {| clock_reads := 0; appends := []; console := [] |}.

(** A clock that shows the same second whenever it is read. *)
Definition frozen_clock (n : nat) : string := "2025-06-01 09:00:00".

Definition accept_all (history : list (append_call * bool)) (call : append_call)
  : bool := true.

Definition reject_all (history : list (append_call * bool)) (call : append_call)
  : bool := false.

(** [sep.join(l)] for the blank line between two sections. *)
Definition paragraphs (l : list string) : string := String.concat (LF +:+ LF) l.

(** A section in which the label of the demand score comes back on a later
    line. *)
Definition scored_section : string :=
  String.concat LF [ "5. DEMAND SCORE: 8/10 (hot)"; "6. COMPETITION: Low";
                     "5. DEMAND SCORE: 3" ].

(** A line on which the label of the demand score comes back, and one on
    which a file separator (code point 28) stands before the slash. *)
Definition twice_scored_line : string := "DEMAND SCORE: 7 DEMAND SCORE: 9/10".

Definition separated_score_line : string :=
  "DEMAND SCORE: 7" +:+ String "028"%char "/10".

(** A text with two numbered sections and none of the labels. *)
Definition unlabelled_text : string :=
  paragraphs [ "1. Here are some ideas"; "2. And a few more" ].

(** The ten labels of lines 150-172, in the order the chain tests them. *)
Definition field_labels : list string :=
  [ "NICHE NAME:"; "TARGET AUDIENCE:"; "DESIGN THEME:"; "PRODUCTS:";
    "DEMAND SCORE:"; "COMPETITION:"; "DESIGN EXAMPLES:"; "WHY IT WORKS:";
    "FACEBOOK AD ANGLE:"; "ESTIMATED MONTHLY REVENUE:" ].

(** ** The shape of a record *)

(** The keys of lines 151-157 and 165, whose value stops at a line break,
    and those of lines 167-173. *)
Definition single_line_keys : list string :=
  [ "niche"; "audience"; "design_theme"; "products"; "competition" ].

Definition free_text_keys : list string :=
  [ "design_examples"; "why_works"; "ad_angle"; "est_revenue" ].

(** What the sink and the console summary may rely on: the demand score is
    an [int], every other key is one of the nine above and holds a [str]. *)
Definition well_typed (d : gmap string pyval) : Prop :=
  ∀ k v, d !! k = Some v →
    (k = "demand_score" ∧ ∃ n, v = VInt n)
    ∨ (k ∈ single_line_keys ++ free_text_keys ∧ ∃ s, v = VStr s).

(** Whether one of the ten labels occurs in a section. *)
Definition has_label (section : string) : bool :=
  existsb (λ label, contains label section) field_labels.

(** ** The shape of a row *)

(** The thirteen cells of lines 189-203 for a record and a time. *)
Definition row_cells (timestamp : string) (opp : gmap string pyval) : list pyval :=
  [ VStr timestamp;
    get opp "niche" (VStr "");
    get opp "audience" (VStr "");
    get opp "design_theme" (VStr "");
    get opp "products" (VStr "");
    get opp "demand_score" (VInt 5);
    get opp "competition" (VStr "Medium");
    get opp "design_examples" (VStr "");
    get opp "why_works" (VStr "");
    get opp "ad_angle" (VStr "");
    get opp "est_revenue" (VStr "");
    VStr "Not started";
    VStr "" ].

(** A row whose sixth cell is an integer and whose other cells are
    strings. *)
Definition row_typed (row : list pyval) : Prop :=
  length row = 13
  ∧ ∀ i cell, row !! i = Some cell →
      if decide (i = 5) then ∃ n, cell = VInt n else ∃ s, cell = VStr s.

(** The two requests the sink can send. *)
Definition rows_call (self : PrintifyTrendFinder) (rows : list (list pyval))
  : append_call :=
  {| call_spreadsheet := sheet_id self; call_range := "Opportunities!A:M";
     call_values := rows |}.

Definition audit_call (self : PrintifyTrendFinder) (timestamp raw_analysis : string)
  : append_call :=
  {| call_spreadsheet := sheet_id self; call_range := "Analysis!A:B";
     call_values := [[ VStr timestamp; VStr raw_analysis ]] |}.

(** ** The rest of the pipeline: collector, analyzer and the run *)

(** A value decoded from JSON. A float is kept as its 64 bits, an object as
    the list of its items, the first of two items with one key counting. *)
#[warnings="-register-all"]
Inductive json :=
  | JNull
  | JBool (b : bool)
  | JInt (z : Z)
  | JFloat (bits : N)
  | JStr (s : string)
  | JList (l : list json)
  | JDict (items : list (string * json)).

(** What the code outside the extractor and the sink can raise:
    [ServiceError] stands for the exceptions of the client libraries,
    [UnicodeEncodeError] is what [print] raises when the console cannot
    encode its text. *)
Inductive failure :=
  | Builtin (e : exception)
  | AttributeError
  | TypeError
  | KeyError
  | ServiceError
  | UnicodeEncodeError.

Inductive outcome (A : Type) : Type :=
  | Returns (a : A)
  | Raises (e : failure).
Arguments Returns {A} a.
Arguments Raises {A} e.

Definition outcome_bind {A B} (m : outcome A) (f : A → outcome B) : outcome B :=
  match m with
  | Returns a => f a
  | Raises e => Raises e
  end.

Notation "'try*' x := m 'in' k" := (outcome_bind m (λ x, k))
  (at level 10, x pattern, m at level 100, k at level 200).

Definition of_exc {A} (m : exc A) : outcome A :=
  match m with
  | Ok a => Returns a
  | Raise e => Raises (Builtin e)
  end.

Fixpoint assoc (key : string) (items : list (string * json)) : option json :=
  match items with
  | [] => None
  | (k, v) :: rest => if decide (k = key) then Some v else assoc key rest
  end.

(** [v.get(key, default)]: only a [dict] has the method. *)
Definition json_get (v : json) (key : string) (default : json) : outcome json :=
  match v with
  | JDict items =>
      Returns (match assoc key items with Some x => x | None => default end)
  | _ => Raises AttributeError
  end.

Fixpoint characters (s : string) : list json :=
  match s with
  | "" => []
  | String c s' => JStr (String c "") :: characters s'
  end.

(** The items that [for item in v[:3]] visits: of a list its first three
    elements, of a string its first three characters. Nothing else can be
    sliced: a [TypeError] (for a [dict] a [KeyError] from CPython 3.12
    on). *)
Definition first_three (v : json) : outcome (list json) :=
  match v with
  | JList l => Returns (take 3 l)
  | JStr s => Returns (characters (slice_to 3 s))
  | _ => Raises TypeError
  end.

(** Lines 72-76: the [dict] built from one search result. *)
Definition trend_of (item : json) : outcome (gmap string json) :=
  try* title := json_get item "title" JNull in
  try* snippet := json_get item "snippet" (JStr "") in
  try* url := json_get item "link" JNull in
  Returns {[ "title" := title; "snippet" := snippet; "url" := url ]}.

(** [t[key]] *)
Definition subscript (t : gmap string json) (key : string) : outcome json :=
  match t !! key with
  | Some v => Returns v
  | None => Raises KeyError
  end.

(** [[f x for x in l]], stopping at the first [x] on which [f] raises. *)
Fixpoint each {A B} (f : A → outcome B) (l : list A) : outcome (list B) :=
  match l with
  | [] => Returns []
  | x :: l' =>
      try* y := f x in
      try* ys := each f l' in
      Returns (y :: ys)
  end.

(** One request to the search service (line 63); the locale, the number of
    results and the timeout are the same in all of them. *)
Record search_call := {
  search_key : string;
  search_query : string
}.

(** A block of the content of a reply of the model. *)
Inductive content_block :=
  | TextBlock (text : string)
  | OtherBlock.

(** The lines that the collector, the analyzer and the run print; the text
    itself is not modelled. *)
Inductive report_line :=
  | NoSerperKey
  | ErrorFindingTrends
  | ErrorWithClaude
  | Rule
  | Title
  | Date (timestamp : string)
  | Blank
  | FindingTrends
  | FoundTrends (n : nat)
  | NoTrendsFound
  | Analyzing
  | Extracting
  | Extracted (n : nat)
  | SavingToSheets
  | BlankThenRule
  | TopTitle
  | TopNiche (i : nat) (niche : pyval)
  | TopAudience (audience : pyval)
  | TopDemand (demand_score : pyval)
  | TopCompetition (competition : pyval)
  | TopProducts (products : pyval)
  | TopRevenue (est_revenue : pyval)
  | CouldNotExtract
  | RawAnalysis
  | Excerpt (text : string)
  | ResearchComplete
  | NextSteps
  | NextStep (n : nat).

(** The world of a whole run: the world of the sink (its clock is the
    clock of the process), the requests sent to the search service, the
    number of pauses taken, the prompts sent to the model, and what the
    run prints apart from the sink. *)
Record process := {
  sheets : world;
  searches : list search_call;
  sleeps : nat;
  prompts : list string;
  stdout : list report_line
}.

(** A program on a state [S] that returns or raises. *)
Definition prog (S A : Type) : Type := S → outcome A * S.

Definition prog_ret {S A} (a : A) : prog S A := λ s, (Returns a, s).

Definition prog_bind {S A B} (m : prog S A) (f : A → prog S B) : prog S B := λ s,
  match m s with
  | (Returns a, s') => f a s'
  | (Raises e, s') => (Raises e, s')
  end.

Notation "'run*' x := m 'in' k" := (prog_bind m (λ x, k))
  (at level 10, x pattern, m at level 100, k at level 200).
Notation "m ;> k" := (prog_bind m (λ _, k))
  (at level 100, k at level 200, right associativity).

(** [try: body except Exception as e: handler e] *)
Definition prog_try {S A} (body : prog S A) (handler : failure → prog S A)
  : prog S A := λ s,
  match body s with
  | (Returns a, s') => (Returns a, s')
  | (Raises e, s') => handler e s'
  end.

(** [for x in xs: body x] *)
Fixpoint prog_for {S A} (body : A → prog S unit) (xs : list A) : prog S unit :=
  match xs with
  | [] => prog_ret tt
  | x :: xs' => body x ;> prog_for body xs'
  end.

(** A value that is computed without the state. *)
Definition pure {S A} (m : outcome A) : prog S A := λ s, (m, s).

(** A program on the process, run beside a local variable. *)
Definition on_process {T A} (m : prog process A) : prog (process * T) A := λ s,
  let '(r, p) := m s.1 in (r, (p, s.2)).

(** A program on a local variable, run beside the process. *)
Definition on_local {T A} (m : prog T A) : prog (process * T) A := λ s,
  let '(r, t) := m s.2 in (r, (s.1, t)).

(** A method of the sink, run in the process. *)
Definition on_sheets {A} (m : io A) : prog process A := λ p,
  let '(r, w) := m (sheets p) in
  (of_exc r,
   {| sheets := w; searches := searches p; sleeps := sleeps p;
      prompts := prompts p; stdout := stdout p |}).

Definition say (l : report_line) : prog process unit := λ p,
  (Returns tt,
   {| sheets := sheets p; searches := searches p; sleeps := sleeps p;
      prompts := prompts p; stdout := stdout p ++ [l] |}).

(** [time.sleep(0.5)] *)
Definition sleep : prog process unit := λ p,
  (Returns tt,
   {| sheets := sheets p; searches := searches p; sleeps := S (sleeps p);
      prompts := prompts p; stdout := stdout p |}).

(** Lines 52-59. *)
Definition queries : list string :=
  [ "trending memes USA 2025";
    "viral quotes 2025";
    "popular sayings 2025";
    "trending hobbies USA";
    "popular movements 2025";
    "trending lifestyle USA" ].

Definition DQ : string := String "034"%char "".

(** Lines 93-96: the prompt up to the trends. *)
Definition prompt_head : string :=
  String.concat LF
    [ "You are a print-on-demand business consultant specializing in USA market Printify/Shopify stores.";
      "";
      "Analyze these trending topics and themes from USA:";
      "";
      "" ].

(** Lines 98-120: the prompt after the trends. *)
Definition prompt_tail : string :=
  String.concat LF
    [ "";
      "";
      "Provide 10 SPECIFIC print-on-demand product opportunities. For each opportunity:";
      "";
      "1. NICHE NAME: (specific, not generic)";
      "2. TARGET AUDIENCE: Who buys this?";
      "3. DESIGN THEME: What should the design look like/say?";
      "4. PRODUCTS: Which POD products? (t-shirt, hoodie, mug, etc.)";
      "5. DEMAND SCORE: 1-10 (how hot is this trend?)";
      "6. COMPETITION: Low/Medium/High";
      "7. DESIGN EXAMPLES: 3 specific text/image ideas";
      "8. WHY IT WORKS: What makes this profitable?";
      "9. FACEBOOK AD ANGLE: How to market this?";
      "10. ESTIMATED MONTHLY REVENUE: Realistic estimate if executed well";
      "";
      "Focus on:";
      "- Specific niches (not just " +:+ DQ +:+ "dog lovers" +:+ DQ +:+ " but " +:+ DQ +:+ "golden retriever moms" +:+ DQ +:+ ")";
      "- Actionable design ideas";
      "- USA cultural trends";
      "- Passion-based audiences";
      "- Gift-giving occasions";
      "- Identity/lifestyle niches";
      "";
      "Format each opportunity clearly with all 10 points." ].

(** Truth value of [self.serper_key]: false for [None] and for the empty
    string. *)
Definition key_truthy (key : option string) : bool :=
  match key with
  | Some (String _ _) => true
  | _ => false
  end.

(** A trend as line 72 builds it: exactly the keys [title], [snippet] and
    [url]. *)
Definition has_trend_keys (t : gmap string json) : Prop :=
  dom t = ({[ "title"; "snippet"; "url" ]} : gset string).

(** Truth value of a list. *)
Definition list_truthy {A} (l : list A) : bool :=
  match l with
  | [] => false
  | _ :: _ => true
  end.

(** The lines of the summary of one record, of the end of a run and of its
    beginning. *)
Definition top_lines (entry : nat * gmap string pyval) : list report_line :=
  [ TopNiche entry.1 (get entry.2 "niche" (VStr "Unknown"));
    TopAudience (get entry.2 "audience" (VStr "N/A"));
    TopDemand (get entry.2 "demand_score" (VInt 0));
    TopCompetition (get entry.2 "competition" (VStr "Unknown"));
    TopProducts (get entry.2 "products" (VStr "N/A"));
    TopRevenue (get entry.2 "est_revenue" (VStr "N/A")) ].

Definition closing_lines : list report_line :=
  [ ResearchComplete; NextSteps;
    NextStep 1; NextStep 2; NextStep 3; NextStep 4; NextStep 5 ].

Definition banner_lines (timestamp : string) : list report_line :=
  [ Rule; Title; Rule; Date timestamp; Blank; FindingTrends ].

(** The process after it printed some lines. *)
Definition printed (lines : list report_line) (p : process) : process :=
  {| sheets := sheets p; searches := searches p; sleeps := sleeps p;
     prompts := prompts p; stdout := stdout p ++ lines |}.

(** The process when the collector is called: the clock was read once and
    the first lines are printed (lines 234-240). *)
Definition after_banner (strftime_now : nat → string) (p : process) : process :=
  {| sheets := {| clock_reads := S (clock_reads (sheets p));
                  appends := appends (sheets p);
                  console := console (sheets p) |};
     searches := searches p; sleeps := sleeps p; prompts := prompts p;
     stdout := stdout p
               ++ banner_lines (strftime_now (clock_reads (sheets p))) |}.

Section Pipeline.

Variable int_max_str_digits : nat.
Variable strftime_now : nat → string.
Variable execute_ok : list (append_call * bool) → append_call → bool.

(** [search_reply history call]: the decoded reply of the search service to
    [call] after the requests in [history], or [None] when the request or
    the decoding raises. *)
Variable search_reply : list search_call → search_call → option json.

(** [model_reply history prompt]: the content of the reply of the model to
    [prompt] after the prompts in [history], or [None] when the request
    raises. *)
Variable model_reply : list string → string → option (list content_block).

(** How an f-string renders a value ([format(v, '')]). *)
Variable format_value : json → string.

(** Lines 63-69: [requests.post(...).json()]. *)
Definition post_search (key query : string) : prog process json := λ p,
  let call := {| search_key := key; search_query := query |} in
  let p' := {| sheets := sheets p; searches := searches p ++ [call];
               sleeps := sleeps p; prompts := prompts p; stdout := stdout p |} in
  match search_reply (searches p) call with
  | Some data => (Returns data, p')
  | None => (Raises ServiceError, p')
  end.

(** Lines 71-76: [trends.append(...)] for each item, [trends] being the
    state. What was appended before an item raises stays appended. *)
Fixpoint append_trends (items : list json) : prog (list (gmap string json)) unit :=
  match items with
  | [] => prog_ret tt
  | item :: rest => λ trends,
      match trend_of item with
      | Returns t => append_trends rest (trends ++ [t])
      | Raises e => (Raises e, trends)
      end
  end.

(** Lines 62-81: one iteration of the loop over the queries. *)
Definition search_one (key query : string)
  : prog (process * list (gmap string json)) unit :=
  prog_try
    (run* data := on_process (post_search key query) in
     run* items := pure (try* organic := json_get data "organic" (JList []) in
                         first_three organic) in
     on_local (append_trends items) ;>
     on_process sleep)
    (λ e, on_process (say ErrorFindingTrends)).

(** Lines 43-83. *)
Definition find_trending_topics (self : PrintifyTrendFinder)
  : prog process (list (gmap string json)) := λ p,
  if negb (key_truthy (serper_key self)) then
    (say NoSerperKey ;> prog_ret []) p
  else
    let key := default "" (serper_key self) in
    match prog_for (search_one key) queries (p, []) with
    | (Returns _, (p', trends)) => (Returns trends, p')
    | (Raises e, (p', _)) => (Raises e, p')
    end.

(** Line 89: the text of one trend. *)
Definition trend_text (t : gmap string json) : outcome string :=
  try* title := subscript t "title" in
  try* snippet := subscript t "snippet" in
  Returns ("Trend: " +:+ format_value title +:+ LF +:+ format_value snippet).

(** Lines 93-120. *)
Definition prompt_of (formatted_trends : string) : string :=
  prompt_head +:+ formatted_trends +:+ prompt_tail.

(** Lines 123-127: [self.claude.messages.create(...)]; the model and the
    token budget are the same in every request. *)
Definition create_message (prompt : string) : prog process (list content_block) :=
  λ p,
  let p' := {| sheets := sheets p; searches := searches p; sleeps := sleeps p;
               prompts := prompts p ++ [prompt]; stdout := stdout p |} in
  match model_reply (prompts p) prompt with
  | Some content => (Returns content, p')
  | None => (Raises ServiceError, p')
  end.

(** Line 129: [message.content[0].text]. *)
Definition first_text (content : list content_block) : outcome string :=
  match content with
  | [] => Raises (Builtin IndexError)
  | TextBlock text :: _ => Returns text
  | OtherBlock :: _ => Raises AttributeError
  end.

(** Lines 85-133. *)
Definition analyze_niche_opportunities (self : PrintifyTrendFinder)
    (trends_data : list (gmap string json)) : prog process string :=
  run* texts := pure (each trend_text (take 15 trends_data)) in
  let formatted_trends := String.concat (LF +:+ LF) texts in
  let prompt := prompt_of formatted_trends in
  prog_try
    (run* content := create_message prompt in
     pure (first_text content))
    (λ e, say ErrorWithClaude ;> prog_ret "Analysis failed").

(** [stdout_encodes line]: whether the encoding of [sys.stdout] has every
    character of the text of [line]. A console in UTF-8 encodes every
    line; one in ASCII refuses what lines 235-275 print with an emoji, and
    a text of the model with a character outside ASCII. *)
Variable stdout_encodes : report_line → bool.

(** [print(line)] in lines 234-281: a [UnicodeEncodeError], with nothing
    written, when the console cannot encode the line. The lines of the
    collector, of the analyzer and of the sink are ASCII literals followed
    by the text of an exception of a library; they go through [say] and
    [print]. *)
Definition print_line (l : report_line) : prog process unit :=
  if stdout_encodes l then say l else pure (Raises UnicodeEncodeError).

(** Lines 263-269: the summary of one record. *)
Definition print_top (entry : nat * gmap string pyval) : prog process unit :=
  let '(i, opp) := entry in
  print_line (TopNiche i (get opp "niche" (VStr "Unknown"))) ;>
  print_line (TopAudience (get opp "audience" (VStr "N/A"))) ;>
  print_line (TopDemand (get opp "demand_score" (VInt 0))) ;>
  print_line (TopCompetition (get opp "competition" (VStr "Unknown"))) ;>
  print_line (TopProducts (get opp "products" (VStr "N/A"))) ;>
  print_line (TopRevenue (get opp "est_revenue" (VStr "N/A"))).

(** [enumerate(l, 1)] *)
Definition enumerate_from_1 {A} (l : list A) : list (nat * A) :=
  imap (λ i x, (S i, x)) l.

(** Lines 275-281. *)
Definition print_next_steps : prog process unit :=
  print_line ResearchComplete ;>
  print_line NextSteps ;>
  print_line (NextStep 1) ;>
  print_line (NextStep 2) ;>
  print_line (NextStep 3) ;>
  print_line (NextStep 4) ;>
  print_line (NextStep 5).

(** Lines 251-281: from the extraction to the end of the run. *)
Definition save_and_report (self : PrintifyTrendFinder) (analysis : string)
  : prog process unit :=
  print_line Extracting ;>
  run* opportunities :=
    pure (of_exc (extract_opportunities int_max_str_digits self analysis)) in
  print_line (Extracted (length opportunities)) ;>
  (if list_truthy opportunities then
     print_line SavingToSheets ;>
     on_sheets (save_to_sheets strftime_now execute_ok self opportunities analysis) ;>
     print_line BlankThenRule ;>
     print_line TopTitle ;>
     print_line Rule ;>
     prog_for print_top (enumerate_from_1 (take 3 opportunities))
   else
     print_line CouldNotExtract ;>
     print_line RawAnalysis ;>
     print_line (Excerpt (slice_to 500 analysis +:+ "..."))) ;>
  print_next_steps.

(** Lines 232-281. *)
Definition run_daily_research (self : PrintifyTrendFinder) : prog process unit :=
  print_line Rule ;>
  print_line Title ;>
  print_line Rule ;>
  run* timestamp := on_sheets (now strftime_now) in
  print_line (Date timestamp) ;>
  print_line Blank ;>
  print_line FindingTrends ;>
  run* trends := find_trending_topics self in
  print_line (FoundTrends (length trends)) ;>
  if negb (list_truthy trends) then
    print_line NoTrendsFound
  else
    print_line Analyzing ;>
    run* analysis := analyze_niche_opportunities self trends in
    save_and_report self analysis.

End Pipeline.

(** ** Sample services for the closed examples *)

Definition keyed_bot : PrintifyTrendFinder :=
  {| sheet_id := "sheet-1";
     serper_key := Some "key-1";
     target_audiences := ["millennials"; "gen z"];
     product_types := ["t-shirt"; "hoodie"; "mug"] |}.

Definition fresh_process : process :=
  {| sheets := fresh_world; searches := []; sleeps := 0; prompts := [];
     stdout := [] |}.

(** One search result, as the pairs of its object. *)
Definition result (title : string) : list (string * json) :=
  [ ("title", JStr title);
    ("snippet", JStr "seen everywhere this week");
    ("link", JStr "https://example.com/page") ].

Definition four_results (query : string) : list (list (string * json)) :=
  [ result (query +:+ ", first"); result (query +:+ ", second");
    result (query +:+ ", third"); result (query +:+ ", fourth") ].

(** A search service that answers every query with four results. *)
Definition steady_search (history : list search_call) (call : search_call)
  : option json :=
  Some (JDict [ ("organic", JList (JDict <$> four_results (search_query call))) ]).

(** A search service whose second result is a string. *)
Definition ragged_reply : json :=
  JDict [ ("organic", JList [ JDict (result "Cat memes"); JStr "advert";
                               JDict (result "Dog memes") ]) ].

Definition ragged_search (history : list search_call) (call : search_call)
  : option json := Some ragged_reply.

(** The trend of [result "Cat memes"]. *)
Definition cat_memes : gmap string json :=
  {[ "title" := JStr "Cat memes";
     "snippet" := JStr "seen everywhere this week";
     "url" := JStr "https://example.com/page" ]}.

Definition steady_model (history : list string) (prompt : string)
  : option (list content_block) :=
  Some [ TextBlock "1. NICHE NAME: Cat Dads" ].

(** A model whose every request raises. *)
Definition silent_model (history : list string) (prompt : string)
  : option (list content_block) := None.

Definition plain_format (v : json) : string :=
  match v with
  | JStr s => s
  | _ => "None"
  end.

(** A spreadsheet service that accepts requests of a single row to the
    spreadsheet [sheet-1], and no other. *)
Definition only_sheet_1 (history : list (append_call * bool)) (call : append_call)
  : bool :=
  bool_decide (call_spreadsheet call = "sheet-1")
  && (length (call_values call) =? 1).



(** A console in UTF-8, and one in ASCII: it refuses what lines 235-275
    print with an emoji (the texts of the model are taken to be ASCII). *)
Definition utf8_console (l : report_line) : bool := true.

Definition ascii_console (l : report_line) : bool :=
  match l with
  | Title | Date _ | FindingTrends | NoTrendsFound | Analyzing | Extracting
  | SavingToSheets | TopTitle | CouldNotExtract | ResearchComplete => false
  | _ => true
  end.

(** An analysis with four records, and one of 599 characters with no
    label. *)
Definition four_niches : string :=
  paragraphs [ "NICHE NAME: Cat Dads"; "NICHE NAME: Dog Moms";
               "NICHE NAME: Plant Parents"; "NICHE NAME: Night Nurses" ].

Definition long_unlabelled_text : string :=
  String.concat " " (replicate 120 "word").

(** * Facts about the string operations *)

Section StringFacts.

Implicit Types s sub sep a b p : string.

#[local] Arguments String.append !_ _ / : simpl nomatch.

Lemma append_nil_r s : s +:+ "" = s.
Proof. induction s as [|c s IH]; simpl; [done | by rewrite IH]. Qed.

Lemma append_assoc a b s : (a +:+ b) +:+ s = a +:+ b +:+ s.
Proof. induction a as [|c a IH]; simpl; [done | by rewrite IH]. Qed.

Lemma length_append a b :
  String.length (a +:+ b) = String.length a + String.length b.
Proof. induction a as [|c a IH]; simpl; [done | by rewrite IH]. Qed.

Lemma prefix_append p s : String.prefix p (p +:+ s) = true.
Proof.
  induction p as [|c p IH]; simpl; [by destruct s |].
  by destruct (ascii_dec c c).
Qed.

Lemma prefix_nil s : String.prefix "" s = true.
Proof. by destruct s. Qed.

Lemma prefix_split p s :
  String.prefix p s = true → s = p +:+ slice_from (String.length p) s.
Proof.
  revert s. induction p as [|c p IH]; intros s H; [done |].
  destruct s as [|d s]; simpl in H; [done |].
  destruct (ascii_dec c d) as [->|]; [|done].
  simpl. f_equal. by apply IH.
Qed.

Lemma slice_to_from i s : slice_to i s +:+ slice_from i s = s.
Proof.
  revert s. induction i as [|i IH]; intros [|c s]; simpl; try done.
  by rewrite IH.
Qed.

Lemma length_slice_from i s :
  String.length (slice_from i s) = String.length s - i.
Proof.
  revert s. induction i as [|i IH]; intros [|c s]; simpl; try done; lia.
Qed.

Lemma find_nil sub :
  find "" sub = if String.prefix sub "" then Some 0 else None.
Proof. done. Qed.

Lemma find_cons c s sub :
  find (String c s) sub =
  if String.prefix sub (String c s) then Some 0 else S <$> find s sub.
Proof. done. Qed.

Lemma prefix_length p s :
  String.prefix p s = true → String.length p ≤ String.length s.
Proof.
  intros H%prefix_split. rewrite H, length_append. lia.
Qed.

(** [find] returns a position where [sub] does occur. *)
Lemma find_Some s sub i :
  find s sub = Some i →
  s = slice_to i s +:+ sub +:+ slice_from (i + String.length sub) s.
Proof.
  revert i. induction s as [|c s IH]; intros i.
  - rewrite find_nil. destruct (String.prefix sub "") eqn:Hp; [|done].
    intros [= <-]. by apply prefix_split in Hp.
  - rewrite find_cons. destruct (String.prefix sub (String c s)) eqn:Hp.
    + intros [= <-]. by apply prefix_split in Hp.
    + destruct (find s sub) as [j|] eqn:Hf; [|done].
      intros [= <-]. simpl. f_equal. by apply IH.
Qed.

Lemma find_length s sub i :
  find s sub = Some i → i + String.length sub ≤ String.length s.
Proof.
  revert i. induction s as [|c s IH]; intros i.
  - rewrite find_nil. destruct (String.prefix sub "") eqn:Hp; [|done].
    intros [= <-]. by apply prefix_length in Hp.
  - rewrite find_cons. destruct (String.prefix sub (String c s)) eqn:Hp.
    + intros [= <-]. by apply prefix_length in Hp.
    + destruct (find s sub) as [j|] eqn:Hf; [|done].
      intros [= <-]. specialize (IH j eq_refl). simpl. lia.
Qed.

(** ... and the lowest such position. *)
Lemma find_leftmost s sub i j :
  find s sub = Some i → j < i → String.prefix sub (slice_from j s) = false.
Proof.
  revert i j. induction s as [|c s IH]; intros i j.
  - rewrite find_nil. destruct (String.prefix sub ""); [|done].
    intros [= <-]. lia.
  - rewrite find_cons. destruct (String.prefix sub (String c s)) eqn:Hp.
    + intros [= <-]. lia.
    + destruct (find s sub) as [i'|] eqn:Hf; [|done].
      intros [= <-] Hj. destruct j as [|j]; [done |].
      apply (IH i'); [done | lia].
Qed.

(** No position is missed: every occurrence is found. *)
Lemma find_append a sub b : is_Some (find (a +:+ sub +:+ b) sub).
Proof.
  induction a as [|c a IH].
  - change ("" +:+ sub +:+ b) with (sub +:+ b).
    destruct (sub +:+ b) eqn:E.
    + rewrite find_nil, <-E, prefix_append. eauto.
    + rewrite find_cons, <-E, prefix_append. eauto.
  - change (String c a +:+ sub +:+ b) with (String c (a +:+ sub +:+ b)).
    rewrite find_cons.
    destruct (String.prefix sub (String c (a +:+ sub +:+ b))); [eauto |].
    destruct IH as [j ->]. simpl. eauto.
Qed.

Lemma contains_iff sub s :
  contains sub s = true ↔ ∃ a b, s = a +:+ sub +:+ b.
Proof.
  unfold contains. split.
  - destruct (find s sub) as [i|] eqn:Hf; [|done].
    intros _. apply find_Some in Hf. eauto.
  - intros (a & b & ->). by destruct (find_append a sub b) as [j ->].
Qed.

Lemma contains_false_find sub s : contains sub s = false → find s sub = None.
Proof. unfold contains. by destruct (find s sub). Qed.

Lemma contains_true_find sub s : contains sub s = true → is_Some (find s sub).
Proof. unfold contains. destruct (find s sub); [eauto | done]. Qed.

Lemma contains_append sub a p b :
  contains sub p = true → contains sub (a +:+ p +:+ b) = true.
Proof.
  rewrite !contains_iff. intros (a' & b' & ->).
  exists (a +:+ a'), (b' +:+ b). by rewrite !append_assoc.
Qed.

Lemma find_nonempty_nil sep : sep ≠ "" → find "" sep = None.
Proof. by destruct sep. Qed.

Lemma length_zero s : String.length s = 0 → s = "".
Proof. by destruct s. Qed.

Lemma partition_append sep s :
  contains sep s = true → s = before sep s +:+ sep +:+ after sep s.
Proof.
  intros [i Hf]%contains_true_find. unfold before, after. rewrite Hf.
  by apply find_Some.
Qed.

(** *** The text up to a character *)

Lemma before_char_nil c : before (String c "") "" = "".
Proof. done. Qed.

Lemma before_char_cons c d s :
  before (String c "") (String d s)
  = if ascii_dec c d then "" else String d (before (String c "") s).
Proof.
  unfold before. rewrite find_cons. cbn [String.prefix].
  destruct (ascii_dec c d); [by rewrite prefix_nil |].
  by destruct (find s (String c "")).
Qed.

Lemma before_cons_miss sep d s :
  String.prefix sep (String d s) = false →
  before sep (String d s) = String d (before sep s).
Proof.
  intros Hp. unfold before. rewrite find_cons, Hp.
  by destruct (find s sep).
Qed.

Lemma contains_char_cons c e sep :
  contains (String c "") (String e sep) = false →
  c ≠ e ∧ contains (String c "") sep = false.
Proof.
  unfold contains. rewrite find_cons. cbn [String.prefix].
  destruct (ascii_dec c e); [by rewrite prefix_nil |].
  by destruct (find sep (String c "")).
Qed.

Lemma contains_tail sub d s :
  contains sub (String d s) = false → contains sub s = false.
Proof.
  intros H. destruct (contains sub s) eqn:E; [|done].
  apply (contains_append sub (String d "") s "") in E.
  rewrite append_nil_r in E.
  change (String d "" +:+ s) with (String d s) in E. by rewrite E in H.
Qed.

Lemma contains_prefix sub s : String.prefix sub s = true → contains sub s = true.
Proof.
  intros H. unfold contains. destruct s; by rewrite ?find_nil, ?find_cons, H.
Qed.

(** A prefix free of [c] is still there when the string is cut at [c]. *)
Lemma prefix_before_char c sep s :
  contains (String c "") sep = false →
  String.prefix sep s = true →
  String.prefix sep (before (String c "") s) = true.
Proof.
  revert s. induction sep as [|e sep IH]; intros s Hc Hp; [apply prefix_nil |].
  apply contains_char_cons in Hc as [Hne Hc].
  destruct s as [|d s]; [done |]. cbn [String.prefix] in Hp.
  destruct (ascii_dec e d) as [->|]; [|done].
  rewrite before_char_cons. destruct (ascii_dec c d); [done |].
  cbn [String.prefix]. destruct (ascii_dec d d); [|done]. by apply IH.
Qed.

(** Cutting at [sep] first changes nothing up to the character [c], when
    [sep] is free of [c] and does not occur before it. *)
Lemma before_char_before sep c s :
  sep ≠ "" →
  contains (String c "") sep = false →
  contains sep (before (String c "") s) = false →
  before (String c "") (before sep s) = before (String c "") s.
Proof.
  intros Hsep Hc. induction s as [|d s IH]; intros Hfree.
  - unfold before at 2. by rewrite find_nonempty_nil.
  - destruct (String.prefix sep (String d s)) eqn:Hp.
    + apply (prefix_before_char c) in Hp; [|done].
      apply contains_prefix in Hp. by rewrite Hp in Hfree.
    + rewrite before_cons_miss by done. rewrite !before_char_cons.
      rewrite before_char_cons in Hfree.
      destruct (ascii_dec c d); [done |].
      f_equal. apply IH. by apply contains_tail in Hfree.
Qed.

(** *** [split] *)

(** More cuts than the string has characters are never used: the bound
    [String.length s] in [split] stands for no bound at all. *)
Lemma split_max_enough sep n m s :
  sep ≠ "" → String.length s ≤ n → String.length s ≤ m →
  split_max n s sep = split_max m s sep.
Proof.
  intros Hsep. revert m s. induction n as [|n IH]; intros [|m] s Hn Hm; simpl.
  - done.
  - apply Nat.le_0_r, length_zero in Hn as ->.
    by rewrite find_nonempty_nil.
  - apply Nat.le_0_r, length_zero in Hm as ->.
    by rewrite find_nonempty_nil.
  - destruct (find s sep) as [i|] eqn:Hf; [|done].
    f_equal. apply find_length in Hf.
    assert (0 < String.length sep) by (destruct sep; [done | simpl; lia]).
    apply IH; rewrite length_slice_from; lia.
Qed.

Lemma split_not_found sep s :
  sep ≠ "" → find s sep = None → split sep s = Ok [s].
Proof.
  intros Hsep Hf. unfold split. rewrite decide_False by done.
  destruct (String.length s); simpl; by rewrite ?Hf.
Qed.

Lemma split_found sep s i :
  sep ≠ "" → find s sep = Some i →
  ∃ l, split sep (after sep s) = Ok l ∧ split sep s = Ok (before sep s :: l).
Proof.
  intros Hsep Hf. unfold split, before, after. rewrite !decide_False by done.
  rewrite Hf. eexists; split; [done |].
  pose proof (find_length _ _ _ Hf) as Hl.
  assert (0 < String.length sep) by (destruct sep; [done | simpl; lia]).
  destruct (String.length s) as [|n] eqn:E; [lia |].
  simpl. rewrite Hf. do 2 f_equal.
  apply split_max_enough; [done | | done].
  rewrite length_slice_from. lia.
Qed.

(** [s.split(sep)[0]] exists and is the text before the first [sep]. *)
Lemma split_item0 sep s : sep ≠ "" → split sep s >>= item 0 = Ok (before sep s).
Proof.
  intros Hsep. destruct (find s sep) as [i|] eqn:Hf.
  - destruct (split_found sep s i) as (l & _ & ->); done.
  - rewrite split_not_found by done. unfold before. by rewrite Hf.
Qed.

(** [s.split(sep)[1]] exists as soon as [sep in s], and is the text between
    the first occurrence of [sep] and the next one. *)
Lemma split_item1 sep s :
  sep ≠ "" → contains sep s = true →
  split sep s >>= item 1 = Ok (before sep (after sep s)).
Proof.
  intros Hsep [i Hf]%contains_true_find.
  destruct (split_found sep s i) as (l & Hl & ->); [done.. |].
  pose proof (split_item0 sep (after sep s) Hsep) as H0.
  rewrite Hl in H0. simpl in H0. unfold item in *. simpl.
  by destruct l.
Qed.

(** Without [sep in s] the same subscript is an [IndexError]. *)
Lemma split_item1_missing sep s :
  sep ≠ "" → contains sep s = false →
  split sep s >>= item 1 = Raise IndexError.
Proof.
  intros Hsep Hf%contains_false_find. by rewrite split_not_found.
Qed.

(** Joining the pieces with the separator gives the string back. *)
Lemma split_max_join sep n s : String.concat sep (split_max n s sep) = s.
Proof.
  revert s. induction n as [|n IH]; intros s; [done |].
  cbn [split_max]. destruct (find s sep) as [i|] eqn:Hf; [|done].
  apply find_Some in Hf. rewrite Hf at 3.
  specialize (IH (slice_from (i + String.length sep) s)).
  destruct (split_max n _ sep) as [|x l] eqn:E.
  - by destruct n; cbn in E; [|destruct (find _ sep)].
  - cbn [String.concat]. cbn [String.concat] in IH. by rewrite IH.
Qed.


(** Every piece of a split is a slice of the string. *)
Lemma split_max_piece sep n s p :
  p ∈ split_max n s sep → ∃ a b, s = a +:+ p +:+ b.
Proof.
  revert s. induction n as [|n IH]; intros s; simpl.
  - intros ->%list_elem_of_singleton. exists "", "". by rewrite append_nil_r.
  - destruct (find s sep) as [i|] eqn:Hf.
    + intros [->|Hin]%elem_of_cons.
      * exists "", (slice_from i s). by rewrite slice_to_from.
      * apply IH in Hin as (a & b & Hab). apply find_Some in Hf.
        exists (slice_to i s +:+ sep +:+ a), b.
        rewrite !append_assoc, <-Hab. done.
    + intros ->%list_elem_of_singleton. exists "", "". by rewrite append_nil_r.
Qed.

Lemma split_piece_contains sep s l p sub :
  split sep s = Ok l → p ∈ l → contains sub p = true → contains sub s = true.
Proof.
  unfold split. destruct (decide (sep = "")); [done |].
  intros [= <-] (a & b & ->)%split_max_piece. apply contains_append.
Qed.

End StringFacts.

(** * Facts about the extractor *)

Section ExtractorFacts.

Variable int_max_str_digits : nat.

#[local] Abbreviation demand_score := (demand_score int_max_str_digits).
#[local] Abbreviation extract_fields := (extract_fields int_max_str_digits).
#[local] Abbreviation loop_body := (loop_body int_max_str_digits).
#[local] Abbreviation records_of := (records_of int_max_str_digits).
#[local] Abbreviation extract_opportunities := (extract_opportunities int_max_str_digits).
#[local] Abbreviation fields := (fields int_max_str_digits).
#[local] Abbreviation step := (step int_max_str_digits).
#[local] Abbreviation int_or_5 := (int_or_5 int_max_str_digits).

Implicit Types (section text : string) (d acc : gmap string pyval).
Implicit Types (st : gmap string pyval * list (gmap string pyval)).

Lemma bind_Ok {A B} (a : A) (f : A → exc B) : Ok a >>= f = f a.
Proof. done. Qed.

(** [s.split(label)[1].split(stop)[0]] under the guard [label in s]. *)
Lemma field_text label stop section :
  label ≠ "" → stop ≠ "" → contains label section = true →
  split label section >>= item 1 >>= split stop >>= item 0
  = Ok (before stop (before label (after label section))).
Proof.
  intros Hl Hs Hc. rewrite split_item1, bind_Ok by done.
  by apply split_item0.
Qed.

Lemma demand_score_eq section :
  contains "DEMAND SCORE:" section = true →
  demand_score section =
  Ok (VInt (int_or_5 (strip (before "/"
       (strip (before LF (before "DEMAND SCORE:" (after "DEMAND SCORE:" section)))))))).
Proof.
  intros Hc. unfold demand_score, int_or_5.
  rewrite field_text, bind_Ok by done.
  rewrite split_item0, bind_Ok by done.
  by destruct (int _ _).
Qed.

Ltac field_branch :=
  rewrite ?demand_score_eq by done;
  rewrite ?split_item1 by done; rewrite ?bind_Ok;
  rewrite ?split_item0 by done; rewrite ?bind_Ok.

Ltac label_cases section :=
  repeat match goal with
  | |- context [if contains ?l section then _ else _] =>
      let E := fresh "E" in
      destruct (contains l section) eqn:E; [field_branch |]
  end.

(** The chain never raises, and what it does to the record does not depend
    on what the record holds. *)
Lemma extract_fields_union section acc :
  extract_fields section acc = Ok (fields section ∪ acc).
Proof.
  unfold fields, extract_fields.
  label_cases section;
    by rewrite <-?insert_union_l, (left_id_L ∅ (∪)).
Qed.

(** A section sets at most one key. *)
Lemma fields_at_most_one section :
  fields section = ∅ ∨ ∃ k v, fields section = {[ k := v ]}.
Proof.
  unfold fields, extract_fields.
  label_cases section; eauto.
Qed.

Lemma fields_no_label section :
  (∀ label, label ∈ field_labels → contains label section = false) →
  fields section = ∅.
Proof.
  intros H. unfold fields, extract_fields.
  rewrite !H; [done | unfold field_labels; set_solver..].
Qed.

(** *** The loop *)

Lemma loop_body_step section st : loop_body section st = Ok (step st section).
Proof.
  unfold loop_body, step.
  destruct (if is_boundary section then flush st else st) as [cur opps].
  by rewrite extract_fields_union.
Qed.

Lemma for_each_loop_body sections st :
  for_each loop_body sections st = Ok (foldl step st sections).
Proof.
  revert st. induction sections as [|x l IH]; intros st; simpl; [done |].
  by rewrite loop_body_step, bind_Ok.
Qed.

Lemma for_each_extract_fields sections acc :
  for_each extract_fields sections acc
  = Ok (foldl (λ d x, fields x ∪ d) acc sections).
Proof.
  revert acc. induction sections as [|x l IH]; intros acc; simpl; [done |].
  by rewrite extract_fields_union, bind_Ok.
Qed.

Lemma records_of_eq sections :
  records_of sections = Ok (flush (foldl step (∅, []) sections)).2.
Proof. unfold records_of. by rewrite for_each_loop_body. Qed.

Lemma split_blank_lines text : ∃ sections, split (LF +:+ LF) text = Ok sections.
Proof. unfold split. rewrite decide_False by done. eauto. Qed.

Lemma dict_truthy_false d : dict_truthy d = false → d = ∅.
Proof.
  unfold dict_truthy. intros H%bool_decide_eq_false.
  destruct (decide (d = ∅)); [done | by destruct H].
Qed.

Lemma dict_truthy_true d : dict_truthy d = true ↔ d ≠ ∅.
Proof. unfold dict_truthy. by rewrite bool_decide_eq_true. Qed.

(** After a flush the record under construction is empty. *)
Lemma flush_fst st : (flush st).1 = ∅.
Proof.
  destruct st as [cur opps]. unfold flush.
  destruct (dict_truthy cur) eqn:E; [done |]. by apply dict_truthy_false.
Qed.

Lemma flush_snd cur opps :
  (flush (cur, opps)).2 = if dict_truthy cur then opps ++ [cur] else opps.
Proof. unfold flush. by destruct (dict_truthy cur). Qed.

Lemma flush_frame pre cur opps :
  (flush (cur, pre ++ opps)).2 = pre ++ (flush (cur, opps)).2.
Proof. rewrite !flush_snd. destruct (dict_truthy cur); by rewrite ?app_assoc. Qed.

Lemma step_boundary st section :
  is_boundary section = true →
  step st section = (fields section ∪ ∅, (flush st).2).
Proof.
  intros Hb. unfold step. rewrite Hb.
  pose proof (flush_fst st) as H1.
  destruct (flush st) as [cur opps]. simpl in *. by subst.
Qed.

Lemma step_inside cur opps section :
  is_boundary section = false →
  step (cur, opps) section = (fields section ∪ cur, opps).
Proof. intros Hb. unfold step. by rewrite Hb. Qed.

(** The records already completed are carried along untouched. *)
Lemma step_frame pre cur opps section :
  step (cur, pre ++ opps) section
  = ((step (cur, opps) section).1, pre ++ (step (cur, opps) section).2).
Proof.
  destruct (is_boundary section) eqn:Hb.
  - rewrite !step_boundary by done. by rewrite flush_frame.
  - by rewrite !step_inside.
Qed.

Lemma foldl_step_frame pre sections cur opps :
  foldl step (cur, pre ++ opps) sections
  = ((foldl step (cur, opps) sections).1,
     pre ++ (foldl step (cur, opps) sections).2).
Proof.
  revert cur opps. induction sections as [|x l IH]; intros cur opps; simpl.
  - done.
  - rewrite step_frame. destruct (step (cur, opps) x) as [c o]. apply IH.
Qed.

Lemma foldl_step_inside sections cur opps :
  Forall (λ x, is_boundary x = false) sections →
  foldl step (cur, opps) sections
  = (foldl (λ d x, fields x ∪ d) cur sections, opps).
Proof.
  intros H. revert cur. induction H as [|x l Hx _ IH]; intros cur; simpl.
  - done.
  - by rewrite step_inside, IH.
Qed.

(** A boundary section cuts the text: what comes before it is finished
    as if the text ended there, what starts with it is read afresh. *)
Lemma records_of_boundary front b rest :
  is_boundary b = true →
  (flush (foldl step (∅, []) (front ++ b :: rest))).2
  = (flush (foldl step (∅, []) front)).2
    ++ (flush (foldl step (∅, []) (b :: rest))).2.
Proof.
  intros Hb. rewrite foldl_app. simpl.
  rewrite !step_boundary by done.
  change (flush (∅, [])).2 with (@nil (gmap string pyval)).
  set (done_ := (flush (foldl step (∅, []) front)).2).
  rewrite <-(app_nil_r done_) at 1.
  rewrite foldl_step_frame.
  destruct (foldl step (fields b ∪ ∅, []) rest) as [c o].
  apply flush_frame.
Qed.

(** Only non-empty records are ever completed. *)
Lemma step_nonempty st section :
  Forall (λ d, d ≠ ∅) st.2 → Forall (λ d, d ≠ ∅) (step st section).2.
Proof.
  destruct st as [cur opps]. intros H. simpl in H.
  destruct (is_boundary section) eqn:Hb.
  - rewrite step_boundary by done. cbn [snd]. rewrite flush_snd.
    destruct (dict_truthy cur) eqn:E; [|done].
    apply Forall_app. split; [done |].
    apply Forall_singleton. by apply dict_truthy_true.
  - by rewrite step_inside.
Qed.

Lemma foldl_step_nonempty sections st :
  Forall (λ d, d ≠ ∅) st.2 → Forall (λ d, d ≠ ∅) (foldl step st sections).2.
Proof.
  revert st. induction sections as [|x l IH]; intros st H; simpl; [done |].
  by apply IH, step_nonempty.
Qed.

Lemma foldl_step_no_fields sections :
  Forall (λ x, fields x = ∅) sections →
  foldl step (∅, []) sections = (∅, []).
Proof.
  induction 1 as [|x l Hx _ IH]; simpl; [done |].
  destruct (is_boundary x) eqn:Hb.
  - rewrite step_boundary by done. rewrite Hx, (left_id_L ∅ (∪)). apply IH.
  - rewrite step_inside by done. rewrite Hx, (left_id_L ∅ (∪)). apply IH.
Qed.

Lemma extract_opportunities_eq self text sections :
  split (LF +:+ LF) text = Ok sections →
  extract_opportunities self text = Ok (flush (foldl step (∅, []) sections)).2.
Proof.
  intros H. unfold extract_opportunities. by rewrite H, bind_Ok, records_of_eq.
Qed.

Lemma extract_opportunities_Ok self text :
  ∃ records, extract_opportunities self text = Ok records.
Proof.
  destruct (split_blank_lines text) as [sections H].
  rewrite (extract_opportunities_eq _ _ _ H). eauto.
Qed.




(** ** The claims about the extractor *)

(** C5: the extractor returns a list of records for every text and never
    raises; every iteration of its loop returns normally, whatever the
    section, and keeps the records completed before it. *)
Theorem extract_opportunities_total self text :
  (∃ records, extract_opportunities self text = Ok records)
  ∧ (∀ section st, ∃ st',
       loop_body section st = Ok st' ∧ st.2 `prefix_of` st'.2).
Proof.
  split; [apply extract_opportunities_Ok |].
  - intros section [cur opps]. rewrite loop_body_step.
    eexists; split; [done |]. cbn [snd].
    destruct (is_boundary section) eqn:Hb.
    + rewrite step_boundary by done. cbn [snd]. rewrite flush_snd.
      destruct (dict_truthy cur); [by eexists | done].
    + by rewrite step_inside.
Qed.

(** C7: no record without a field is ever returned, whatever boundaries
    the text holds; and a text in which none of the ten labels occurs
    yields no record at all. *)
Theorem no_labels_no_records self text :
  (∃ records, extract_opportunities self text = Ok records
              ∧ Forall (λ d, d ≠ ∅) records)
  ∧ (Forall (λ label, contains label text = false) field_labels →
     extract_opportunities self text = Ok []).
Proof.
  destruct (split_blank_lines text) as [sections Hs].
  rewrite (extract_opportunities_eq _ _ _ Hs). split.
  - eexists; split; [done |].
    pose proof (foldl_step_nonempty sections (∅, []) (Forall_nil_2 _)) as H.
    destruct (foldl step (∅, []) sections) as [cur opps]. cbn [snd] in H.
    rewrite flush_snd. destruct (dict_truthy cur) eqn:E; [|done].
    apply Forall_app. split; [done |].
    apply Forall_singleton. by apply dict_truthy_true.
  - intros Hnone. rewrite foldl_step_no_fields; [done |].
    apply Forall_forall. intros section Hin. apply fields_no_label.
    intros label Hl. rewrite Forall_forall in Hnone.
    specialize (Hnone label Hl).
    destruct (contains label section) eqn:E; [|done].
    by rewrite (split_piece_contains _ _ _ _ _ Hs Hin E) in Hnone.
Qed.

(** C9: when the text opens with sections that are no boundary and set
    some field, the record they build is returned first, on its own;
    the rest of the text, which is empty or opens with a boundary,
    yields the records it would yield alone. *)
Theorem leading_fields_form_a_record self text lead rest acc :
  split (LF +:+ LF) text = Ok (lead ++ rest) →
  Forall (λ x, is_boundary x = false) lead →
  starts_record rest = true →
  for_each extract_fields lead ∅ = Ok acc →
  dict_truthy acc = true →
  ∃ others,
    records_of rest = Ok others
    ∧ extract_opportunities self text = Ok (acc :: others).
Proof.
  intros Hs Hlead Hrest Hacc Hne.
  rewrite for_each_extract_fields in Hacc. injection Hacc as Hacc.
  rewrite (extract_opportunities_eq _ _ _ Hs), records_of_eq.
  eexists; split; [done |]. f_equal.
  assert ((flush (foldl step (∅, []) lead)).2 = [acc]) as Hfront.
  { rewrite foldl_step_inside, Hacc by done. by rewrite flush_snd, Hne. }
  destruct rest as [|b rest].
  - by rewrite app_nil_r, Hfront.
  - by rewrite records_of_boundary, Hfront.
Qed.


(** C4 as amended: on a section holding the label, the demand score is
    computed without raising, and it is what the chain stores under
    [demand_score] when it reaches that label; it is the integer that
    [int] reads in the text after the first label up to the next line
    break or the next occurrence of the label, whichever comes first,
    stripped, cut at the first slash and stripped again, and 5 when [int]
    refuses that text; so 7/10 gives 7, N/A gives 5 and 10 gives 10. *)
Theorem demand_score_parsing :
  (∀ section, contains "DEMAND SCORE:" section = true →
     ∃ n, demand_score section = Ok (VInt n))
  ∧ (∀ section d,
       contains "NICHE NAME:" section = false →
       contains "TARGET AUDIENCE:" section = false →
       contains "DESIGN THEME:" section = false →
       contains "PRODUCTS:" section = false →
       contains "DEMAND SCORE:" section = true →
       ∃ n, demand_score section = Ok (VInt n)
            ∧ extract_fields section d = Ok (<[ "demand_score" := VInt n ]> d))
  ∧ (∀ section,
       contains "DEMAND SCORE:" section = true →
       let score_text :=
         strip (before LF (before "DEMAND SCORE:"
                             (after "DEMAND SCORE:" section))) in
       demand_score section
       = Ok (VInt (match int int_max_str_digits (strip (before "/" score_text)) with
                   | Ok n => n
                   | Raise _ => 5%Z
                   end)))
  ∧ demand_score "DEMAND SCORE: 7/10" = Ok (VInt 7)
  ∧ demand_score "DEMAND SCORE: N/A" = Ok (VInt 5)
  ∧ demand_score "DEMAND SCORE: 10" = Ok (VInt 10).
Proof.
  split; [|split; [|split]].
  - intros section H. rewrite demand_score_eq by done. eauto.
  - intros section d H1 H2 H3 H4 H. eexists. split; [by apply demand_score_eq |].
    unfold extract_fields. by rewrite H1, H2, H3, H4, H, demand_score_eq.
  - intros section H. by rewrite demand_score_eq.
  - repeat split; vm_compute; reflexivity.
Qed.

(** C1 (the code departs from it): whatever the section, the chain sets at
    most one key; a section holding the labels of the niche and of the
    audience gives a record with the niche alone. *)
Theorem one_field_per_section self :
  (∀ section acc, ∃ d,
     extract_fields section acc = Ok d
     ∧ (d = acc ∨ ∃ k v, d = <[ k := v ]> acc))
  ∧ extract_opportunities self
      ("NICHE NAME: Cat Dads" +:+ LF +:+ "TARGET AUDIENCE: Men 25-40")
    = Ok [ {[ "niche" := VStr "Cat Dads" ]} ].
Proof.
  split; [|vm_compute; reflexivity].
  intros section acc. rewrite extract_fields_union. eexists; split; [done |].
  destruct (fields_at_most_one section) as [-> | (k & v & ->)].
  - left. by rewrite (left_id_L ∅ (∪)).
  - right. exists k, v. by rewrite insert_union_singleton_l.
Qed.

(** C2 (the code departs from it): the block of ten labelled lines that the
    prompt asks for gives one record, and that record holds the niche
    only. *)
Theorem ten_label_block_yields_niche_only self :
  extract_opportunities self
    (String.concat LF
       [ "1. NICHE NAME: Golden Retriever Moms";
         "2. TARGET AUDIENCE: Women 30-50";
         "3. DESIGN THEME: Retro sunset";
         "4. PRODUCTS: t-shirt, mug";
         "5. DEMAND SCORE: 8/10";
         "6. COMPETITION: Low";
         "7. DESIGN EXAMPLES: Dog Mom Era, Golden Hour, Fur Mama";
         "8. WHY IT WORKS: Gift purchases";
         "9. FACEBOOK AD ANGLE: Target dog owners";
         "10. ESTIMATED MONTHLY REVENUE: $2,000" ])
  = Ok [ {[ "niche" := VStr "Golden Retriever Moms" ]} ].
Proof. vm_compute. reflexivity. Qed.

End ExtractorFacts.

(** * The limit on the digits of an integer *)

Section DigitLimit.

#[local] Arguments String.append !_ _ / : simpl nomatch.

Implicit Types (s sep section text : string) (limit : nat).









(** *** [int] and the limit *)





(** *** The extractor and the limit *)





End DigitLimit.

(** * Facts about the report sink *)

Section SinkFacts.

Variable strftime_now : nat → string.
Variable execute_ok : list (append_call * bool) → append_call → bool.

#[local] Abbreviation opportunity_row := (opportunity_row strftime_now).
#[local] Abbreviation values_append := (values_append execute_ok).
#[local] Abbreviation save_to_sheets := (save_to_sheets strftime_now execute_ok).

Implicit Types (w : world) (opportunities : list (gmap string pyval)).

(** Building the rows reads the clock once per record and touches nothing
    else. *)
Lemma io_map_opportunity_row opportunities w :
  ∃ rows,
    io_map opportunity_row opportunities w
    = (Ok rows, {| clock_reads := clock_reads w + length opportunities;
                   appends := appends w; console := console w |})
    ∧ length rows = length opportunities.
Proof.
  revert w. induction opportunities as [|opp l IH]; intros w.
  - exists []. split; [|done]. cbn. destruct w; cbn. by rewrite Nat.add_0_r.
  - cbn [io_map]. unfold io_bind at 1. unfold opportunity_row at 1.
    unfold io_bind at 1. unfold now at 1. cbn [io_ret].
    unfold io_bind at 1.
    destruct (IH {| clock_reads := S (clock_reads w); appends := appends w;
                    console := console w |}) as (rows & -> & Hlen).
    eexists. split.
    + unfold io_ret. cbn [clock_reads appends console length].
      rewrite Nat.add_succ_r. reflexivity.
    + cbn [length]. by rewrite Hlen.
Qed.

(** Whatever the service does, the sink returns normally. *)
Lemma save_to_sheets_returns self opportunities raw_analysis w :
  ∃ w', save_to_sheets self opportunities raw_analysis w = (Ok tt, w').
Proof.
  unfold save_to_sheets.
  destruct (bool_decide (sheet_id self = "") || bool_decide (opportunities = []));
    [by eexists |].
  unfold io_try.
  match goal with |- context [match ?body w with _ => _ end] =>
    destruct (body w) as [[[]|e] w1] end; by eexists.
Qed.

(** ** The claims about the sink *)

(** C8: with no spreadsheet configured, or with no record, the sink returns
    normally, sends no append request and leaves the clock alone; it only
    prints its notice. *)
Theorem nothing_to_save self opportunities raw_analysis w :
  sheet_id self = "" ∨ opportunities = [] →
  save_to_sheets self opportunities raw_analysis w
  = (Ok tt, {| clock_reads := clock_reads w; appends := appends w;
               console := console w ++ [NoOpportunitiesToSave] |}).
Proof.
  intros H. unfold save_to_sheets.
  destruct H as [-> | ->].
  - by rewrite bool_decide_eq_true_2.
  - rewrite (bool_decide_eq_true_2 ([] = [])) by done.
    by rewrite orb_true_r.
Qed.

End SinkFacts.

(** * Further facts about [strip] *)

Section StripFacts.

Variable space : ascii → bool.

Implicit Types s : string.

#[local] Arguments String.append !_ _ / : simpl nomatch.

Lemma lstrip_by_head s :
  lstrip_by space s = ""
  ∨ ∃ c r, lstrip_by space s = String c r ∧ space c = false.
Proof.
  induction s as [|c s IH]; [by left |]. cbn [lstrip_by].
  destruct (space c) eqn:E; [done |]. right. eauto.
Qed.

Lemma rstrip_by_cons c s :
  space c = false → rstrip_by space (String c s) = String c (rstrip_by space s).
Proof. intros H. cbn [rstrip_by]. rewrite H. by destruct (rstrip_by space s). Qed.

Lemma rstrip_by_idemp s :
  rstrip_by space (rstrip_by space s) = rstrip_by space s.
Proof.
  induction s as [|c s IH]; [done |]. cbn [rstrip_by].
  destruct (rstrip_by space s) as [|d r] eqn:E.
  - destruct (space c) eqn:Hc; [done |]. cbn [rstrip_by]. by rewrite Hc.
  - cbn [rstrip_by]. cbn [rstrip_by] in IH. by rewrite IH.
Qed.

(** [lstrip] drops a prefix and [rstrip] a suffix. *)
Lemma lstrip_by_suffix s : ∃ a, s = a +:+ lstrip_by space s.
Proof.
  induction s as [|c s [a IH]]; [by exists "" |]. cbn [lstrip_by].
  destruct (space c); [|by exists ""].
  exists (String c a). simpl. by rewrite <-IH.
Qed.

Lemma rstrip_by_prefix s : ∃ b, s = rstrip_by space s +:+ b.
Proof.
  induction s as [|c s [b IH]]; [by exists "" |]. cbn [rstrip_by].
  destruct (rstrip_by space s) as [|d r] eqn:E.
  - destruct (space c).
    + by exists (String c s).
    + exists b. simpl. by rewrite IH at 1.
  - exists b. simpl. by rewrite IH at 1.
Qed.

End StripFacts.

Lemma strip_idemp s : strip (strip s) = strip s.
Proof.
  unfold strip.
  destruct (lstrip_by_head is_space s) as [-> | (c & r & -> & Hc)]; [done |].
  rewrite rstrip_by_cons by done. cbn [lstrip_by]. rewrite Hc.
  rewrite <-rstrip_by_cons by done. apply rstrip_by_idemp.
Qed.

(** What is stripped is a slice of the string. *)
Lemma strip_slice s : ∃ a b, s = a +:+ strip s +:+ b.
Proof.
  unfold strip. destruct (lstrip_by_suffix is_space s) as [a Ha].
  destruct (rstrip_by_prefix is_space (lstrip_by is_space s)) as [b Hb].
  exists a, b. by rewrite <-Hb.
Qed.

Lemma strip_free sub s : contains sub s = false → contains sub (strip s) = false.
Proof.
  intros H. destruct (contains sub (strip s)) eqn:E; [|done].
  destruct (strip_slice s) as (a & b & Hs).
  apply (contains_append sub a _ b) in E. by rewrite <-Hs, H in E.
Qed.

(** * Further facts about [find] and [split] *)

Section PieceFacts.

Implicit Types s sep p a b : string.

#[local] Arguments String.append !_ _ / : simpl nomatch.

Lemma before_char_free c s : contains (String c "") (before (String c "") s) = false.
Proof.
  induction s as [|d s IH]; [done |]. rewrite before_char_cons.
  destruct (ascii_dec c d) as [|Hne]; [done |].
  unfold contains in *. rewrite find_cons. cbn [String.prefix].
  destruct (ascii_dec c d); [done |].
  by destruct (find (before (String c "") s) (String c "")).
Qed.

Lemma prefix_append_l p a b :
  String.prefix p a = true → String.prefix p (a +:+ b) = true.
Proof.
  revert a. induction p as [|c p IH]; intros a H; [apply prefix_nil |].
  destruct a as [|d a]; [done |]. cbn [String.prefix] in *. simpl.
  destruct (ascii_dec c d); [by apply IH | done].
Qed.

Lemma prefix_slice_to p n s :
  String.prefix p (slice_to n s) = true → String.prefix p s = true.
Proof.
  intros H. rewrite <-(slice_to_from n s). by apply prefix_append_l.
Qed.

(** The separator does not occur before its first occurrence. *)
Lemma find_slice_free s sep i :
  sep ≠ "" → find s sep = Some i → find (slice_to i s) sep = None.
Proof.
  intros Hsep. revert i. induction s as [|c s IH]; intros i.
  - rewrite find_nonempty_nil by done. done.
  - rewrite find_cons. destruct (String.prefix sep (String c s)) eqn:Hp.
    + intros [= <-]. by apply find_nonempty_nil.
    + destruct (find s sep) as [j|] eqn:Hf; [|done].
      intros [= <-]. cbn [slice_to]. rewrite find_cons.
      destruct (String.prefix sep (String c (slice_to j s))) eqn:Hq.
      * apply (prefix_slice_to sep (S j) (String c s)) in Hq. by rewrite Hq in Hp.
      * by rewrite (IH j).
Qed.

Lemma before_free sep s : sep ≠ "" → contains sep (before sep s) = false.
Proof.
  intros Hsep. unfold before, contains.
  destruct (find s sep) as [i|] eqn:Hf.
  - by rewrite (find_slice_free s sep i).
  - by rewrite Hf.
Qed.

(** No piece of a split holds the separator. *)
Lemma split_max_free sep n s :
  sep ≠ "" → String.length s ≤ n →
  Forall (λ p, contains sep p = false) (split_max n s sep).
Proof.
  intros Hsep. revert s. induction n as [|n IH]; intros s Hn; cbn [split_max].
  - apply Nat.le_0_r, length_zero in Hn as ->.
    apply Forall_singleton. unfold contains. by rewrite find_nonempty_nil.
  - destruct (find s sep) as [i|] eqn:Hf.
    + apply Forall_cons. split.
      * unfold contains. by rewrite (find_slice_free s sep i).
      * apply IH. apply find_length in Hf. rewrite length_slice_from.
        assert (0 < String.length sep) by (destruct sep; [done | simpl; lia]).
        lia.
    + apply Forall_singleton. unfold contains. by rewrite Hf.
Qed.

End PieceFacts.

(** * Further facts about the extractor *)

Section ExtractorExtras.

Variable int_max_str_digits : nat.

#[local] Abbreviation extract_fields := (extract_fields int_max_str_digits).
#[local] Abbreviation records_of := (records_of int_max_str_digits).
#[local] Abbreviation extract_opportunities := (extract_opportunities int_max_str_digits).
#[local] Abbreviation fields := (fields int_max_str_digits).
#[local] Abbreviation step := (step int_max_str_digits).

Implicit Types (section text : string) (d acc : gmap string pyval).
Implicit Types (st : gmap string pyval * list (gmap string pyval)).

Ltac chain_cases section :=
  repeat match goal with
  | |- context [if contains ?l section then _ else _] =>
      let E := fresh "E" in
      destruct (contains l section) eqn:E;
      [ rewrite ?demand_score_eq by done;
        rewrite ?split_item1 by done; rewrite ?bind_Ok;
        rewrite ?split_item0 by done; rewrite ?bind_Ok |]
  end.

(** What a section can set: nothing, a single-line value, a demand score
    or a free text. *)
Lemma fields_form section :
  fields section = ∅
  ∨ (∃ k x, k ∈ single_line_keys
            ∧ fields section = {[ k := VStr (strip (before LF x)) ]})
  ∨ (∃ n, fields section = {[ "demand_score" := VInt n ]})
  ∨ (∃ k x, k ∈ free_text_keys ∧ fields section = {[ k := VStr (strip x) ]}).
Proof.
  unfold fields, extract_fields.
  chain_cases section.
  all: first
    [ by left
    | right; left; eexists _, _; split; [|reflexivity];
      unfold single_line_keys; repeat (first [by left | right])
    | right; right; left; by eexists
    | right; right; right; eexists _, _; split; [|reflexivity];
      unfold free_text_keys; repeat (first [by left | right]) ].
Qed.

(** A property of every binding a section sets holds of every binding of
    every record returned. *)
Lemma records_lookup (P : string → pyval → Prop) sections :
  (∀ section k v, fields section !! k = Some v → P k v) →
  Forall (λ d, ∀ k v, d !! k = Some v → P k v)
         (flush (foldl step (∅, []) sections)).2.
Proof.
  intros HP.
  set (inv st := (∀ k v, st.1 !! k = Some v → P k v)
                 ∧ Forall (λ d, ∀ k v, d !! k = Some v → P k v) st.2).
  assert (∀ st, inv st →
            Forall (λ d, ∀ k v, d !! k = Some v → P k v) (flush st).2) as Hflush.
  { intros [cur opps] [Hc Ho]. rewrite flush_snd.
    destruct (dict_truthy cur); [|done].
    apply Forall_app. split; [done |]. by apply Forall_singleton. }
  assert (∀ st section, inv st → inv (step st section)) as Hstep.
  { intros st section Hi.
    assert (∀ cur k v, (∀ k v, cur !! k = Some v → P k v) →
              (fields section ∪ cur) !! k = Some v → P k v) as Hu.
    { intros cur k v Hcur [H | [_ H]]%lookup_union_Some_raw; eauto. }
    destruct (is_boundary section) eqn:Hb.
    - rewrite step_boundary by done. split; cbn [fst snd].
      + intros k v. apply Hu. intros k' v'. by rewrite lookup_empty.
      + by apply Hflush.
    - destruct st as [cur opps]. destruct Hi as [Hc Ho].
      rewrite step_inside by done. split; cbn [fst snd]; [|done].
      intros k v. by apply Hu. }
  apply Hflush.
  assert (inv (∅, [])) as H0.
  { split; cbn [fst snd]; [|done]. intros k v. by rewrite lookup_empty. }
  revert H0. generalize (∅ : gmap string pyval, [] : list (gmap string pyval)).
  induction sections as [|x l IH]; intros st Hi; cbn [foldl]; [done |].
  by apply IH, Hstep.
Qed.

Ltac by_form section H :=
  destruct (fields_form section)
    as [E | [(k' & x & Hk & E) | [(n & E) | (k' & x & Hk & E)]]];
  rewrite E in H;
  [ by rewrite lookup_empty in H
  | apply lookup_singleton_Some in H as [<- Hv]
  | apply lookup_singleton_Some in H as [<- Hv]
  | apply lookup_singleton_Some in H as [<- Hv] ];
  simplify_eq.

Lemma records_of_well_typed sections :
  Forall well_typed (flush (foldl step (∅, []) sections)).2.
Proof.
  apply (records_lookup (λ k v,
    (k = "demand_score" ∧ ∃ n, v = VInt n)
    ∨ (k ∈ single_line_keys ++ free_text_keys ∧ ∃ s, v = VStr s))).
  intros section k v H. by_form section H.
  - right. split; [apply elem_of_app; by left | by eexists].
  - left. split; [done | by eexists].
  - right. split; [apply elem_of_app; by right | by eexists].
Qed.

Lemma extract_opportunities_well_typed self text records :
  extract_opportunities self text = Ok records → Forall well_typed records.
Proof.
  destruct (split_blank_lines text) as [sections Hs].
  rewrite (extract_opportunities_eq _ _ _ _ Hs). intros [= <-].
  apply records_of_well_typed.
Qed.

(** X1: every record returned is well typed: the demand score is an
    integer, and every other key is one of the nine string keys and holds a
    string. *)
Theorem records_well_typed self text :
  ∃ records,
    extract_opportunities self text = Ok records ∧ Forall well_typed records.
Proof.
  destruct (extract_opportunities_Ok int_max_str_digits self text) as [records H].
  exists records. split; [done |]. by eapply extract_opportunities_well_typed.
Qed.

(** X2: every string stored in a record returned is stripped: it neither
    begins nor ends with white space, so stripping it again changes
    nothing. *)
Theorem record_strings_stripped self text :
  ∃ records,
    extract_opportunities self text = Ok records
    ∧ Forall (λ d, ∀ k s, d !! k = Some (VStr s) → strip s = s) records.
Proof.
  destruct (split_blank_lines text) as [sections Hs].
  rewrite (extract_opportunities_eq _ _ _ _ Hs).
  eexists; split; [done |].
  eapply Forall_impl;
    [apply (records_lookup (λ k v, ∀ s, v = VStr s → strip s = s)) |].
  - intros section k v H s ->. by_form section H; apply strip_idemp.
  - intros d Hd k s Hk. by apply (Hd k (VStr s)).
Qed.

(** X3: the niche, the audience, the design theme, the products and the
    competition of a record returned never hold a line break. *)
Theorem single_line_fields_hold_no_line_break self text :
  ∃ records,
    extract_opportunities self text = Ok records
    ∧ Forall (λ d, ∀ k s, k ∈ single_line_keys → d !! k = Some (VStr s) →
                          contains LF s = false) records.
Proof.
  destruct (split_blank_lines text) as [sections Hs].
  rewrite (extract_opportunities_eq _ _ _ _ Hs).
  eexists; split; [done |].
  eapply Forall_impl;
    [apply (records_lookup (λ k v, ∀ s, k ∈ single_line_keys → v = VStr s →
                                        contains LF s = false)) |].
  - intros section k v H s Hin ->. by_form section H.
    + apply strip_free, before_char_free.
    + exfalso. clear -Hin Hk. unfold single_line_keys, free_text_keys in *.
      apply list_elem_of_In in Hin, Hk. simpl in Hin, Hk.
      intuition congruence.
  - intros d Hd k s Hin Hk. by apply (Hd k (VStr s)).
Qed.

Lemma has_label_false section : has_label section = false → fields section = ∅.
Proof.
  intros H. apply fields_no_label. intros label Hin.
  destruct (contains label section) eqn:E; [|done].
  assert (has_label section = true) as Ht; [|by rewrite Ht in H].
  apply existsb_exists. exists label. split; [|done].
  by apply list_elem_of_In.
Qed.

Lemma length_flush st :
  length (flush st).2 = length st.2 + (if dict_truthy st.1 then 1 else 0).
Proof.
  destruct st as [cur opps]. rewrite flush_snd. cbn [fst snd].
  destruct (dict_truthy cur); [rewrite length_app; simpl |]; lia.
Qed.

Lemma foldl_step_boundaries sections st :
  length (foldl step st sections).2
  ≤ length st.2 + length (List.filter is_boundary sections).
Proof.
  revert st. induction sections as [|x l IH]; intros st; cbn [foldl List.filter].
  - lia.
  - etrans; [apply IH |]. destruct (is_boundary x) eqn:Hb.
    + rewrite step_boundary by done. cbn [snd length]. rewrite length_flush.
      destruct (dict_truthy st.1); lia.
    + destruct st as [cur opps]. rewrite step_inside by done. cbn [snd]. lia.
Qed.

Lemma foldl_step_labelled sections st :
  length (flush (foldl step st sections)).2
  ≤ length (flush st).2 + length (List.filter has_label sections).
Proof.
  revert st. induction sections as [|x l IH]; intros st; cbn [foldl List.filter].
  - lia.
  - etrans; [apply IH |].
    assert (length (flush (step st x)).2
            ≤ length (flush st).2 + (if has_label x then 1 else 0)) as Hs.
    { destruct (has_label x) eqn:Hl.
      - destruct (is_boundary x) eqn:Hb.
        + rewrite step_boundary by done. rewrite (length_flush (_, _)).
          cbn [fst snd]. destruct (dict_truthy _); lia.
        + destruct st as [cur opps]. rewrite step_inside by done.
          rewrite !length_flush. cbn [fst snd].
          destruct (dict_truthy _), (dict_truthy cur); lia.
      - apply has_label_false in Hl.
        destruct (is_boundary x) eqn:Hb.
        + rewrite step_boundary by done. rewrite (length_flush (_, _)).
          cbn [fst snd]. rewrite Hl, (left_id_L ∅ (∪)).
          change (dict_truthy ∅) with false. cbv iota. lia.
        + destruct st as [cur opps]. rewrite step_inside by done.
          rewrite Hl, (left_id_L ∅ (∪)). lia. }
    destruct (has_label x); cbn [length]; lia.
Qed.

(** X4: there are never more records than boundary sections plus one, nor
    more records than sections holding a label. *)
Theorem record_count_bounds self text :
  ∃ sections records,
    split (LF +:+ LF) text = Ok sections
    ∧ extract_opportunities self text = Ok records
    ∧ length records ≤ S (length (List.filter is_boundary sections))
    ∧ length records ≤ length (List.filter has_label sections).
Proof.
  destruct (split_blank_lines text) as [sections Hs].
  exists sections. rewrite (extract_opportunities_eq _ _ _ _ Hs).
  eexists; split; [done |]. split; [done |]. split.
  - rewrite length_flush.
    pose proof (foldl_step_boundaries sections (∅, [])) as H. cbn [snd length] in H.
    destruct (dict_truthy _); lia.
  - pose proof (foldl_step_labelled sections (∅, [])) as H.
    by rewrite (length_flush (∅, [])) in H.
Qed.

(** X5: a boundary section cuts the work in two: the records of the whole
    list of sections are those of the sections before the boundary followed
    by those of the sections from the boundary on. *)
Theorem records_split_at_boundary front b rest :
  is_boundary b = true →
  ∃ earlier later,
    records_of front = Ok earlier
    ∧ records_of (b :: rest) = Ok later
    ∧ records_of (front ++ b :: rest) = Ok (earlier ++ later).
Proof.
  intros Hb. rewrite !records_of_eq. eexists _, _.
  split; [done |]. split; [done |]. f_equal. by apply records_of_boundary.
Qed.

(** X6: a boundary section and the sections after it up to the next
    boundary or the end make exactly one record when they set a field at
    all: the record that the chain builds from them alone. *)
Theorem boundary_run_forms_one_record front b run rest acc :
  is_boundary b = true →
  Forall (λ x, is_boundary x = false) run →
  starts_record rest = true →
  for_each extract_fields (b :: run) ∅ = Ok acc →
  dict_truthy acc = true →
  ∃ earlier later,
    records_of front = Ok earlier
    ∧ records_of rest = Ok later
    ∧ records_of (front ++ b :: run ++ rest) = Ok (earlier ++ acc :: later).
Proof.
  intros Hb Hrun Hrest Hacc Ht.
  rewrite for_each_extract_fields in Hacc. injection Hacc as Hacc.
  cbn [foldl] in Hacc.
  rewrite !records_of_eq. eexists _, _.
  split; [done |]. split; [done |]. f_equal.
  rewrite records_of_boundary by done. f_equal.
  assert ((flush (foldl step (∅, []) (b :: run))).2 = [acc]) as Hone.
  { cbn [foldl]. rewrite step_boundary by done.
    change (flush (∅, [])).2 with (@nil (gmap string pyval)).
    rewrite foldl_step_inside by done.
    by rewrite flush_snd, Hacc, Ht. }
  destruct rest as [|b' rest].
  - by rewrite app_nil_r, Hone.
  - change (b :: run ++ b' :: rest) with ((b :: run) ++ b' :: rest).
    by rewrite records_of_boundary, Hone.
Qed.

(** X7: cutting the text into sections loses nothing and leaves no blank
    line inside a section: the sections joined by blank lines are the text
    again, and no section holds two line breaks in a row. *)
Theorem sections_round_trip text :
  ∃ sections,
    split (LF +:+ LF) text = Ok sections
    ∧ String.concat (LF +:+ LF) sections = text
    ∧ Forall (λ x, contains (LF +:+ LF) x = false) sections.
Proof.
  unfold split. rewrite decide_False by done. eexists; split; [done |].
  split; [apply split_max_join | by apply split_max_free].
Qed.

End ExtractorExtras.

(** * Further facts about the report sink *)

Section SinkExtras.

Variable int_max_str_digits : nat.
Variable strftime_now : nat → string.
Variable execute_ok : list (append_call * bool) → append_call → bool.

#[local] Abbreviation opportunity_row := (opportunity_row strftime_now).
#[local] Abbreviation save_to_sheets := (save_to_sheets strftime_now execute_ok).
#[local] Abbreviation extract_opportunities := (extract_opportunities int_max_str_digits).

Implicit Types (w : world) (opportunities : list (gmap string pyval)).

(** The rows are built in the order of the records, each with a reading of
    the clock of its own. *)
Lemma io_map_rows opportunities w :
  io_map opportunity_row opportunities w
  = (Ok (imap (λ i opp, row_cells (strftime_now (clock_reads w + i)) opp)
              opportunities),
     {| clock_reads := clock_reads w + length opportunities;
        appends := appends w; console := console w |}).
Proof.
  revert w. induction opportunities as [|opp l IH]; intros w.
  - cbn. destruct w; cbn. by rewrite Nat.add_0_r.
  - cbn [io_map]. unfold io_bind at 1. unfold opportunity_row at 1.
    unfold io_bind at 1. unfold now at 1. cbn [io_ret].
    unfold io_bind at 1. rewrite IH.
    unfold io_ret. cbn [clock_reads appends console length imap].
    rewrite Nat.add_0_r, Nat.add_succ_r. do 3 f_equal.
    apply imap_ext. intros i x _. cbn. by rewrite Nat.add_succ_r.
Qed.

(** The log of the sink after a call with a spreadsheet and records. *)
Lemma save_to_sheets_log self opportunities raw_analysis w :
  sheet_id self ≠ "" → opportunities ≠ [] →
  let rows := imap (λ i opp, row_cells (strftime_now (clock_reads w + i)) opp)
                   opportunities in
  let audit := audit_call self
                 (strftime_now (clock_reads w + length opportunities))
                 raw_analysis in
  ∃ w', save_to_sheets self opportunities raw_analysis w = (Ok tt, w')
    ∧ (appends w' = appends w ++ [(rows_call self rows, false)]
       ∨ ∃ accepted,
           appends w' = appends w ++ [(rows_call self rows, true);
                                      (audit, accepted)]).
Proof.
  intros Hid Hopps rows audit. unfold save_to_sheets.
  rewrite (bool_decide_eq_false_2 (sheet_id self = "")) by done.
  rewrite (bool_decide_eq_false_2 (opportunities = [])) by done.
  cbn [orb]. unfold io_try, io_bind. rewrite io_map_rows. fold rows.
  unfold values_append at 1. cbn [appends clock_reads console].
  fold (rows_call self rows).
  destruct (execute_ok (appends w) (rows_call self rows)) eqn:E1.
  - unfold print at 1. cbn [appends clock_reads console].
    unfold now at 1. cbn [appends clock_reads console].
    unfold values_append at 1. cbn [appends clock_reads console].
    fold audit.
    match goal with
    | |- context [if ?c then _ else _] => destruct c eqn:E2
    end;
      (eexists; split; [done |]; right; eexists;
       cbn [appends print]; by rewrite <-app_assoc).
  - eexists; split; [done |]. by left.
Qed.

(** C3 as amended: with a spreadsheet configured, at least one record and
    the request for the rows of these records accepted, the sink returns
    normally after two requests: the rows, one per record, to the range of
    the opportunities, then one row holding the time read after the rows
    were built and the whole analysis text, to the range of the
    analyses. *)
Theorem audit_row_follows_accepted_rows self opportunities raw_analysis w :
  sheet_id self ≠ "" →
  opportunities ≠ [] →
  execute_ok (appends w)
    (rows_call self
       (imap (λ i opp, row_cells (strftime_now (clock_reads w + i)) opp)
             opportunities))
  = true →
  ∃ rows accepted w',
    save_to_sheets self opportunities raw_analysis w = (Ok tt, w')
    ∧ length rows = length opportunities
    ∧ appends w'
      = appends w
        ++ [ ({| call_spreadsheet := sheet_id self;
                 call_range := "Opportunities!A:M";
                 call_values := rows |}, true);
             ({| call_spreadsheet := sheet_id self;
                 call_range := "Analysis!A:B";
                 call_values :=
                   [[ VStr (strftime_now (clock_reads w + length opportunities));
                      VStr raw_analysis ]] |}, accepted) ].
Proof.
  intros Hid Hopps Hok. unfold save_to_sheets.
  rewrite (bool_decide_eq_false_2 (sheet_id self = "")) by done.
  rewrite (bool_decide_eq_false_2 (opportunities = [])) by done.
  cbn [orb]. unfold io_try, io_bind. rewrite io_map_rows.
  exists (imap (λ i opp, row_cells (strftime_now (clock_reads w + i)) opp)
               opportunities).
  unfold values_append at 1. cbn [appends clock_reads console].
  unfold rows_call in Hok. rewrite Hok.
  unfold print at 1. cbn [appends clock_reads console].
  unfold now at 1. cbn [appends clock_reads console].
  unfold values_append at 1. cbn [appends clock_reads console].
  match goal with
  | |- context [if execute_ok ?h ?c then _ else _] =>
      exists (execute_ok h c); destruct (execute_ok h c) eqn:E
  end.
  - eexists; split; [done |]. split; [by rewrite length_imap |].
    cbn [appends]. by rewrite <-app_assoc.
  - eexists; split; [done |]. split; [by rewrite length_imap |].
    cbn [appends print]. by rewrite <-app_assoc.
Qed.

Lemma save_to_sheets_sent self opportunities raw_analysis w :
  ∃ w' sent,
    save_to_sheets self opportunities raw_analysis w = (Ok tt, w')
    ∧ appends w' = appends w ++ sent
    ∧ length sent ≤ 2.
Proof.
  destruct (decide (sheet_id self = "")) as [Hid|Hid].
  { unfold save_to_sheets. rewrite (bool_decide_eq_true_2 _ Hid).
    eexists _, []. split; [reflexivity |]. split; [| cbn; lia].
    cbn. by rewrite app_nil_r. }
  destruct opportunities as [|opp l].
  { unfold save_to_sheets. rewrite (bool_decide_eq_false_2 _ Hid).
    eexists _, []. split; [reflexivity |]. split; [| cbn; lia].
    cbn. by rewrite app_nil_r. }
  destruct (save_to_sheets_log self (opp :: l) raw_analysis w)
    as (w' & Hrun & [Hlog | [accepted Hlog]]); [done.. | |];
    eexists w', _; (split; [done |]); (split; [exact Hlog |]); cbn; lia.
Qed.

(** X8: whatever the service does, the sink returns normally and only adds
    to the log of requests: nothing, or the request for the rows alone when
    it is refused, or that request accepted followed by the request for the
    analysis. The analysis is never sent first, nor after a refusal. *)
Theorem sink_sends_rows_then_audit self opportunities raw_analysis w :
  ∃ w',
    save_to_sheets self opportunities raw_analysis w = (Ok tt, w')
    ∧ (appends w' = appends w
       ∨ (∃ rows, appends w' = appends w ++ [(rows_call self rows, false)])
       ∨ (∃ rows timestamp accepted,
            appends w'
            = appends w ++ [(rows_call self rows, true);
                            (audit_call self timestamp raw_analysis, accepted)])).
Proof.
  destruct (decide (sheet_id self = "")) as [Hid|Hid].
  { unfold save_to_sheets. rewrite (bool_decide_eq_true_2 _ Hid).
    eexists; split; [done |]. by left. }
  destruct opportunities as [|opp l].
  { unfold save_to_sheets. rewrite (bool_decide_eq_false_2 _ Hid).
    eexists; split; [done |]. by left. }
  destruct (save_to_sheets_log self (opp :: l) raw_analysis w)
    as (w' & Hrun & [Hlog | [accepted Hlog]]); [done.. | |];
    exists w'; (split; [done |]); right; [left | right]; eauto.
Qed.

(** X9: with a spreadsheet and at least one record, the first request
    holds one row per record, in the order of the records; the row of the
    record at index [i] carries the time read at the [i]-th reading of the
    clock, the fields of that record with their defaults, and the fixed
    status and notes. *)
Theorem rows_follow_records self opportunities raw_analysis w :
  sheet_id self ≠ "" → opportunities ≠ [] →
  ∃ rows accepted rest w',
    save_to_sheets self opportunities raw_analysis w = (Ok tt, w')
    ∧ appends w' = appends w ++ (rows_call self rows, accepted) :: rest
    ∧ length rows = length opportunities
    ∧ ∀ i opp, opportunities !! i = Some opp →
        rows !! i
        = Some [ VStr (strftime_now (clock_reads w + i));
                 get opp "niche" (VStr "");
                 get opp "audience" (VStr "");
                 get opp "design_theme" (VStr "");
                 get opp "products" (VStr "");
                 get opp "demand_score" (VInt 5);
                 get opp "competition" (VStr "Medium");
                 get opp "design_examples" (VStr "");
                 get opp "why_works" (VStr "");
                 get opp "ad_angle" (VStr "");
                 get opp "est_revenue" (VStr "");
                 VStr "Not started";
                 VStr "" ].
Proof.
  intros Hid Hopps.
  destruct (save_to_sheets_log self opportunities raw_analysis w)
    as (w' & Hrun & [Hlog | [accepted Hlog]]); [done.. | |];
    (eexists _, _, _, w'; split; [done |]; split; [exact Hlog |];
     split; [by rewrite length_imap |];
     intros i opp Hi; by rewrite list_lookup_imap, Hi).
Qed.

Lemma row_cells_typed timestamp (opp : gmap string pyval) :
  well_typed opp → row_typed (row_cells timestamp opp).
Proof.
  intros Hwt. split; [done |].
  assert (∀ k default,
            k ∈ single_line_keys ++ free_text_keys →
            (∃ s, default = VStr s) → ∃ s, get opp k default = VStr s) as Hstr.
  { intros k default Hk Hd. unfold get. destruct (opp !! k) as [v|] eqn:E; [|done].
    apply Hwt in E as [[-> _] | [_ Hs]]; [|done].
    apply list_elem_of_In in Hk. simpl in Hk. intuition congruence. }
  assert (∃ n, get opp "demand_score" (VInt 5) = VInt n) as Hint.
  { unfold get. destruct (opp !! "demand_score") as [v|] eqn:E; [|by eexists].
    apply Hwt in E as [[_ Hn] | [Hk _]]; [done |].
    apply list_elem_of_In in Hk. simpl in Hk. intuition congruence. }
  intros i cell Hi.
  do 13 (destruct i as [|i];
         [ injection Hi as <-; cbn [decide_rel decide];
           first [ exact Hint
                 | by eexists
                 | apply Hstr; [|by eexists];
                   apply list_elem_of_In; simpl; tauto ] |]).
  done.
Qed.

(** X10: the records that the extractor returns for a text give, when
    they are saved, rows of thirteen cells in which the demand score is an
    integer and every other cell a string. *)
Theorem extracted_rows_are_typed self text raw_analysis w records :
  extract_opportunities self text = Ok records →
  sheet_id self ≠ "" → records ≠ [] →
  ∃ rows accepted rest w',
    save_to_sheets self records raw_analysis w = (Ok tt, w')
    ∧ appends w' = appends w ++ (rows_call self rows, accepted) :: rest
    ∧ Forall row_typed rows.
Proof.
  intros Hex%extract_opportunities_well_typed Hid Hne.
  destruct (save_to_sheets_log self records raw_analysis w)
    as (w' & Hrun & [Hlog | [accepted Hlog]]); [done.. | |];
    (eexists _, _, _, w'; split; [done |]; split; [exact Hlog |];
     apply Forall_lookup_2; intros i row (opp & Hi & ->)%list_lookup_imap_Some;
     apply row_cells_typed; eapply Forall_lookup_1; eauto).
Qed.

End SinkExtras.

(** * Facts about the collector, the analyzer and the run *)

Section PipelineFacts.

Variable int_max_str_digits : nat.
Variable strftime_now : nat → string.
Variable execute_ok : list (append_call * bool) → append_call → bool.
Variable search_reply : list search_call → search_call → option json.
Variable model_reply : list string → string → option (list content_block).
Variable format_value : json → string.

#[local] Abbreviation post_search := (post_search search_reply).
#[local] Abbreviation search_one := (search_one search_reply).
#[local] Abbreviation find_trending_topics := (find_trending_topics search_reply).
#[local] Abbreviation trend_text := (trend_text format_value).
#[local] Abbreviation create_message := (create_message model_reply).
#[local] Abbreviation analyze_niche_opportunities :=
  (analyze_niche_opportunities model_reply format_value).
Implicit Types (p : process) (trends : list (gmap string json)).

(** ** The collector *)

Lemma trend_of_dict items :
  ∃ t, trend_of (JDict items) = Returns t ∧ has_trend_keys t.
Proof.
  eexists. split; [reflexivity |]. unfold has_trend_keys.
  rewrite !dom_insert_L, dom_singleton_L. by rewrite (assoc_L (∪)).
Qed.

Lemma trend_of_Returns item t : trend_of item = Returns t → has_trend_keys t.
Proof.
  destruct item as [| | | | | |items]; try done.
  destruct (trend_of_dict items) as (t' & -> & Hk). by intros [= <-].
Qed.

Lemma trend_of_Raises item e : trend_of item = Raises e → e = AttributeError.
Proof. destruct item; try done; by intros [= <-]. Qed.

Lemma append_trends_spec items trends :
  ∃ added,
    (append_trends items trends).2 = trends ++ added
    ∧ length added ≤ length items
    ∧ Forall has_trend_keys added
    ∧ ((append_trends items trends).1 = Returns tt
       ∨ (append_trends items trends).1 = Raises AttributeError).
Proof.
  revert trends. induction items as [|item rest IH]; intros trends.
  - exists []. rewrite app_nil_r. cbn. auto.
  - cbn [append_trends]. destruct (trend_of item) as [t|e] eqn:E.
    + destruct (IH (trends ++ [t])) as (added & -> & Hlen & Hkeys & Hres).
      exists (t :: added). rewrite <-app_assoc. cbn [length].
      split; [done |]. split; [lia |]. split; [|done].
      apply Forall_cons. split; [by eapply trend_of_Returns | done].
    + apply trend_of_Raises in E as ->. exists []. rewrite app_nil_r. cbn.
      split; [done |]. split; [lia |]. auto.
Qed.

Lemma length_characters s : length (characters s) = String.length s.
Proof. induction s as [|c s IH]; cbn; [done | by rewrite IH]. Qed.

Lemma length_slice_to n s : String.length (slice_to n s) ≤ n.
Proof.
  revert s. induction n as [|n IH]; intros [|c s]; cbn; try lia.
  specialize (IH s). lia.
Qed.

Lemma first_three_length v items : first_three v = Returns items → length items ≤ 3.
Proof.
  destruct v; try done; intros [= <-].
  - rewrite length_characters. exact (length_slice_to 3 s).
  - rewrite length_take. lia.
Qed.

(** One iteration: one request, at most three trends more, and either a
    pause or a line of error; it never raises. *)
Lemma search_one_spec key query p trends :
  ∃ added p',
    search_one key query (p, trends) = (Returns tt, (p', trends ++ added))
    ∧ length added ≤ 3
    ∧ Forall has_trend_keys added
    ∧ sheets p' = sheets p
    ∧ prompts p' = prompts p
    ∧ searches p'
      = searches p ++ [ {| search_key := key; search_query := query |} ]
    ∧ ((sleeps p' = S (sleeps p) ∧ stdout p' = stdout p)
       ∨ (sleeps p' = sleeps p ∧ stdout p' = stdout p ++ [ErrorFindingTrends])).
Proof.
  unfold search_one, prog_try, prog_bind, on_process, post_search, pure.
  cbn [fst snd].
  destruct (search_reply _ _) as [data|].
  2:{ eexists [], _. rewrite app_nil_r. cbn. split; [reflexivity |].
      cbn. repeat split; auto. }
  destruct (outcome_bind (json_get data "organic" (JList [])) _)
    as [items|e] eqn:Hitems.
  2:{ eexists [], _. rewrite app_nil_r. cbn. split; [reflexivity |].
      cbn. repeat split; auto. }
  assert (length items ≤ 3) as Hthree.
  { destruct (json_get data "organic" (JList [])) as [organic|]; [|done].
    by apply first_three_length in Hitems. }
  unfold on_local. cbn [fst snd].
  destruct (append_trends_spec items trends)
    as (added & Hadded & Hlen & Hkeys & Hres).
  destruct (append_trends items trends) as [r trends'].
  cbn [fst snd] in Hadded, Hres. subst trends'.
  exists added. destruct Hres as [-> | ->]; cbn.
  - eexists. split; [reflexivity |]. cbn.
    split; [lia |]. repeat split; auto.
  - eexists. split; [reflexivity |]. cbn.
    split; [lia |]. repeat split; auto.
Qed.

(** The loop over the queries. *)
Lemma search_all_spec key qs p trends :
  ∃ added errors p',
    prog_for (search_one key) qs (p, trends)
    = (Returns tt, (p', trends ++ added))
    ∧ length added ≤ 3 * length qs
    ∧ Forall has_trend_keys added
    ∧ sheets p' = sheets p
    ∧ prompts p' = prompts p
    ∧ searches p'
      = searches p ++ ((λ q, {| search_key := key; search_query := q |}) <$> qs)
    ∧ stdout p' = stdout p ++ replicate errors ErrorFindingTrends
    ∧ sleeps p' + errors = sleeps p + length qs.
Proof.
  revert p trends. induction qs as [|q qs IH]; intros p trends.
  - exists [], 0, p. rewrite !app_nil_r. cbn. repeat split; auto.
  - cbn [prog_for]. unfold prog_bind at 1.
    destruct (search_one_spec key q p trends)
      as (added1 & p1 & -> & Hlen1 & Hkeys1 & Hsh1 & Hpr1 & Hse1 & Heff).
    destruct (IH p1 (trends ++ added1))
      as (added2 & errors & p2 & -> & Hlen2 & Hkeys2 & Hsh2 & Hpr2 & Hse2
          & Hout2 & Hsl2).
    exists (added1 ++ added2).
    destruct Heff as [[Hsl1 Hout1] | [Hsl1 Hout1]].
    + exists errors, p2. rewrite <-app_assoc. split; [done |].
      rewrite length_app. cbn [length]. split; [lia |].
      split; [by apply Forall_app |]. split; [congruence |].
      split; [congruence |].
      split; [by rewrite Hse2, Hse1, <-app_assoc |].
      split; [congruence | lia].
    + exists (S errors), p2. rewrite <-app_assoc. split; [done |].
      rewrite length_app. cbn [length]. split; [lia |].
      split; [by apply Forall_app |]. split; [congruence |].
      split; [congruence |].
      split; [by rewrite Hse2, Hse1, <-app_assoc |].
      split; [by rewrite Hout2, Hout1, <-app_assoc | lia].
Qed.

Lemma each_app {A B} (f : A → outcome B) l1 l2 r1 r2 :
  each f l1 = Returns r1 → each f l2 = Returns r2 →
  each f (l1 ++ l2) = Returns (r1 ++ r2).
Proof.
  revert r1. induction l1 as [|x l1 IH]; intros r1; cbn [each app].
  - by intros [= <-].
  - destruct (f x) as [y|]; [|done]. cbn [outcome_bind].
    destruct (each f l1) as [ys|]; [|done]. cbn [outcome_bind].
    intros [= <-] H2. by rewrite (IH ys eq_refl H2).
Qed.

Lemma each_length {A B} (f : A → outcome B) l r :
  each f l = Returns r → length r = length l.
Proof.
  revert r. induction l as [|x l IH]; intros r; cbn [each].
  - by intros [= <-].
  - destruct (f x) as [y|]; [|done]. cbn [outcome_bind].
    destruct (each f l) as [ys|]; [|done]. cbn [outcome_bind].
    intros [= <-]. cbn. by rewrite (IH ys).
Qed.

Lemma each_trend_of_dicts (l : list (list (string * json))) :
  ∃ ts, each trend_of (JDict <$> l) = Returns ts.
Proof.
  induction l as [|items l [ts IH]]; [by exists [] |].
  cbn [fmap list_fmap each]. destruct (trend_of_dict items) as (t & -> & _).
  cbn [outcome_bind]. change (list_fmap _ _ JDict l) with (JDict <$> l).
  rewrite IH. by eexists.
Qed.

(** Items that all give a trend are all appended. *)
Lemma append_trends_each items kept trends :
  each trend_of items = Returns kept →
  append_trends items trends = (Returns tt, trends ++ kept).
Proof.
  revert kept trends. induction items as [|item rest IH]; intros kept trends.
  - intros [= <-]. by rewrite app_nil_r.
  - cbn [each append_trends]. destruct (trend_of item) as [t|]; [|done].
    cbn [outcome_bind]. destruct (each trend_of rest) as [ts|]; [|done].
    cbn [outcome_bind]. intros [= <-].
    rewrite (IH ts (trends ++ [t]) eq_refl). by rewrite <-app_assoc.
Qed.

(** The items before one that is no [dict] are appended, the ones after it
    are not. *)
Lemma append_trends_stops good bad rest kept trends :
  each trend_of good = Returns kept →
  (∀ items, bad ≠ JDict items) →
  append_trends (good ++ bad :: rest) trends
  = (Raises AttributeError, trends ++ kept).
Proof.
  intros Hgood Hbad. revert kept trends Hgood.
  induction good as [|item good IH]; intros kept trends.
  - intros [= <-]. rewrite app_nil_r. cbn [app append_trends].
    destruct bad; try done. by destruct (Hbad items).
  - cbn [each app append_trends]. destruct (trend_of item) as [t|]; [|done].
    cbn [outcome_bind]. destruct (each trend_of good) as [ts|]; [|done].
    cbn [outcome_bind]. intros [= <-].
    rewrite (IH ts (trends ++ [t]) eq_refl). by rewrite <-app_assoc.
Qed.

(** X11: without a key (none, or an empty one) the collector sends no
    request and takes no pause: it prints its notice and returns no
    trend. *)
Theorem collector_without_key self p :
  key_truthy (serper_key self) = false →
  find_trending_topics self p
  = (Returns [],
     {| sheets := sheets p; searches := searches p; sleeps := sleeps p;
        prompts := prompts p; stdout := stdout p ++ [NoSerperKey] |}).
Proof. intros H. unfold find_trending_topics. by rewrite H. Qed.

(** X12: with a key the collector never raises and sends exactly six
    requests, one per query in the order of the list, each with the key,
    whatever the replies; every query ends in a pause or in a line of
    error, never both; the sink and the prompts are left alone. *)
Theorem collector_sends_six_requests self p :
  key_truthy (serper_key self) = true →
  ∃ key trends errors p',
    serper_key self = Some key
    ∧ find_trending_topics self p = (Returns trends, p')
    ∧ searches p'
      = searches p
        ++ ((λ q, {| search_key := key; search_query := q |}) <$> queries)
    ∧ stdout p' = stdout p ++ replicate errors ErrorFindingTrends
    ∧ sleeps p' + errors = sleeps p + 6
    ∧ sheets p' = sheets p
    ∧ prompts p' = prompts p.
Proof.
  intros H. unfold find_trending_topics. rewrite H. cbn [negb].
  destruct (serper_key self) as [key|]; [|done].
  change (default "" (Some key)) with key.
  destruct (search_all_spec key queries p [])
    as (added & errors & p' & -> & _ & _ & Hsh & Hpr & Hse & Hout & Hsl).
  exists key, added, errors, p'. repeat split; auto.
Qed.

(** X13: the collector returns at most eighteen trends, and each of them
    has exactly the keys [title], [snippet] and [url]. *)
Theorem collector_trends_shape self p :
  ∃ trends p',
    find_trending_topics self p = (Returns trends, p')
    ∧ length trends ≤ 18
    ∧ Forall has_trend_keys trends.
Proof.
  unfold find_trending_topics.
  destruct (key_truthy (serper_key self)); cbn [negb].
  - destruct (search_all_spec (default "" (serper_key self)) queries p [])
      as (added & errors & p' & -> & Hlen & Hkeys & _).
    exists added, p'. cbn in Hlen. by repeat split.
  - eexists [], _. split; [reflexivity |]. split; [cbn; lia | done].
Qed.

(** X14: when one of the first three results of a query is no object, the
    results before it are kept as trends, that one and the ones after it
    are dropped, a line of error is printed and the pause is skipped. *)
Theorem partial_results_are_kept key query data good bad rest kept p trends :
  search_reply (searches p) {| search_key := key; search_query := query |}
  = Some data →
  json_get data "organic" (JList []) = Returns (JList (good ++ bad :: rest)) →
  length good < 3 →
  each trend_of good = Returns kept →
  (∀ items, bad ≠ JDict items) →
  ∃ p',
    search_one key query (p, trends) = (Returns tt, (p', trends ++ kept))
    ∧ sleeps p' = sleeps p
    ∧ stdout p' = stdout p ++ [ErrorFindingTrends].
Proof.
  intros Hreply Horganic Hlen Hgood Hbad.
  unfold search_one, prog_try, prog_bind, on_process, post_search, pure.
  cbn [fst snd]. rewrite Hreply, Horganic. cbn [outcome_bind first_three].
  unfold on_local. cbn [fst snd].
  rewrite take_app, (take_ge good) by lia.
  destruct (3 - length good) as [|n] eqn:E; [lia |]. cbn [take].
  rewrite (append_trends_stops good bad _ kept) by done.
  eexists. split; [reflexivity |]. by cbn.
Qed.

(** X15: when every reply is an object whose [organic] is a list of
    objects, the trends returned are those of the first three results of
    each query, in the order of the queries; the collector takes six pauses
    and prints no error. *)
Theorem collector_takes_three_per_query self key
    (results : string → list (list (string * json))) p :
  serper_key self = Some key →
  key_truthy (Some key) = true →
  (∀ history call, ∃ data,
      search_reply history call = Some data
      ∧ json_get data "organic" (JList [])
        = Returns (JList (JDict <$> results (search_query call)))) →
  ∃ trends p',
    find_trending_topics self p = (Returns trends, p')
    ∧ each trend_of (q ← queries; JDict <$> take 3 (results q)) = Returns trends
    ∧ sleeps p' = sleeps p + 6
    ∧ stdout p' = stdout p.
Proof.
  intros Hkey Htruthy Hreplies. unfold find_trending_topics.
  rewrite Hkey, Htruthy. cbn [negb].
  change (default "" (Some key)) with key.
  assert (∀ q p trends, ∃ ts p',
            search_one key q (p, trends) = (Returns tt, (p', trends ++ ts))
            ∧ each trend_of (JDict <$> take 3 (results q)) = Returns ts
            ∧ sleeps p' = S (sleeps p)
            ∧ stdout p' = stdout p) as Hone.
  { intros q p0 trends.
    destruct (each_trend_of_dicts (take 3 (results q))) as [ts1 Hts1].
    unfold search_one, prog_try, prog_bind, on_process, post_search, pure.
    cbn [fst snd].
    destruct (Hreplies (searches p0)
                {| search_key := key; search_query := q |})
      as (data & -> & Horganic).
    cbn [search_query] in Horganic. rewrite Horganic.
    cbn [outcome_bind first_three]. unfold on_local. cbn [fst snd].
    rewrite <-fmap_take, (append_trends_each _ ts1) by done.
    eexists ts1, _. split; [reflexivity |]. by cbn. }
  assert (∀ qs p trends, ∃ ts p',
            prog_for (search_one key) qs (p, trends)
            = (Returns tt, (p', trends ++ ts))
            ∧ each trend_of (q ← qs; JDict <$> take 3 (results q)) = Returns ts
            ∧ sleeps p' = sleeps p + length qs
            ∧ stdout p' = stdout p) as Hloop.
  { induction qs as [|q qs IH]; intros p0 trends.
    - exists [], p0. rewrite app_nil_r. cbn. repeat split; auto.
    - cbn [prog_for]. unfold prog_bind at 1.
      destruct (Hone q p0 trends) as (ts1 & p1 & -> & Hts1 & Hsl1 & Hout1).
      destruct (IH p1 (trends ++ ts1)) as (ts2 & p2 & -> & Hts2 & Hsl & Hout).
      exists (ts1 ++ ts2), p2. rewrite <-app_assoc. split; [done |].
      split.
      + cbn [mbind list_bind]. change (list_bind _ _ ?f qs) with (mbind f qs).
        by apply each_app.
      + cbn [length]. split; [lia | congruence]. }
  destruct (Hloop queries p []) as (ts & p' & -> & Hts & Hsl & Hout).
  exists ts, p'. by repeat split.
Qed.

(** ** The analyzer *)

Lemma trend_text_Returns t : has_trend_keys t → ∃ text, trend_text t = Returns text.
Proof.
  unfold has_trend_keys. intros Hdom.
  assert (is_Some (t !! "title")) as [title Ht].
  { apply elem_of_dom. rewrite Hdom. set_solver. }
  assert (is_Some (t !! "snippet")) as [snippet Hs].
  { apply elem_of_dom. rewrite Hdom. set_solver. }
  unfold trend_text, subscript. rewrite Ht, Hs. by eexists.
Qed.

Lemma each_trend_text_Returns trends :
  Forall has_trend_keys trends → ∃ texts, each trend_text trends = Returns texts.
Proof.
  induction 1 as [|t l Ht _ [texts IH]]; [by exists [] |].
  destruct (trend_text_Returns t Ht) as [text Htext].
  cbn [each]. rewrite Htext, IH. by eexists.
Qed.

Lemma trend_text_Raises t :
  t !! "title" = None ∨ t !! "snippet" = None → trend_text t = Raises KeyError.
Proof.
  unfold trend_text, subscript. intros [H | H]; rewrite H; [done |].
  by destruct (t !! "title").
Qed.

Lemma trend_text_outcome t :
  (∃ text, trend_text t = Returns text) ∨ trend_text t = Raises KeyError.
Proof.
  unfold trend_text, subscript.
  destruct (t !! "title"); [|by right].
  destruct (t !! "snippet"); [left; by eexists | by right].
Qed.

Lemma each_trend_text_Raises trends :
  Exists (λ t, t !! "title" = None ∨ t !! "snippet" = None) trends →
  each trend_text trends = Raises KeyError.
Proof.
  induction 1 as [t l Ht | t l _ IH]; cbn [each].
  - by rewrite (trend_text_Raises t Ht).
  - rewrite IH. by destruct (trend_text_outcome t) as [[text ->] | ->].
Qed.

(** What a call of the analyzer does once the texts of the trends are
    built. *)
Lemma analyze_spec self trends p texts :
  each trend_text (take 15 trends) = Returns texts →
  ∃ text p',
    analyze_niche_opportunities self trends p = (Returns text, p')
    ∧ prompts p' = prompts p ++ [prompt_of (String.concat (LF +:+ LF) texts)]
    ∧ sheets p' = sheets p
    ∧ searches p' = searches p
    ∧ sleeps p' = sleeps p
    ∧ ((∃ rest, model_reply (prompts p)
                  (prompt_of (String.concat (LF +:+ LF) texts))
                = Some (TextBlock text :: rest)
                ∧ stdout p' = stdout p)
       ∨ (text = "Analysis failed" ∧ stdout p' = stdout p ++ [ErrorWithClaude])).
Proof.
  intros Htexts. unfold analyze_niche_opportunities, prog_bind at 1, pure at 1.
  rewrite Htexts. unfold prog_try, prog_bind, create_message, pure.
  destruct (model_reply _ _) as [[|[text|] rest]|] eqn:E.
  - eexists _, _. split; [reflexivity |]. cbn. repeat split; auto.
  - eexists _, _. split; [reflexivity |]. cbn. repeat split; eauto.
  - eexists _, _. split; [reflexivity |]. cbn. repeat split; auto.
  - eexists _, _. split; [reflexivity |]. cbn. repeat split; auto.
Qed.

(** X16: on trends that have their keys, as those of the collector do, the
    analyzer never raises and sends exactly one prompt, the one built from
    the first fifteen trends; it returns the text of the first block of
    the reply, or the words [Analysis failed] after a line of error. It
    touches neither the sink nor the search service. *)
Theorem analyzer_returns_reply_or_sentinel self trends p :
  Forall has_trend_keys (take 15 trends) →
  ∃ texts text p',
    each trend_text (take 15 trends) = Returns texts
    ∧ analyze_niche_opportunities self trends p = (Returns text, p')
    ∧ prompts p' = prompts p ++ [prompt_of (String.concat (LF +:+ LF) texts)]
    ∧ sheets p' = sheets p
    ∧ searches p' = searches p
    ∧ ((∃ rest, model_reply (prompts p)
                  (prompt_of (String.concat (LF +:+ LF) texts))
                = Some (TextBlock text :: rest)
                ∧ stdout p' = stdout p)
       ∨ (text = "Analysis failed" ∧ stdout p' = stdout p ++ [ErrorWithClaude])).
Proof.
  intros [texts Htexts]%each_trend_text_Returns.
  destruct (analyze_spec self trends p texts Htexts)
    as (text & p' & Hrun & Hpr & Hsh & Hse & _ & Hout).
  exists texts, text, p'. by repeat split.
Qed.

(** X17: a trend among the first fifteen without a title or without a
    snippet makes the analyzer raise a [KeyError] before any request is
    sent: the prompt is built outside the [try]. *)
Theorem analyzer_raises_on_missing_key self trends p :
  Exists (λ t, t !! "title" = None ∨ t !! "snippet" = None) (take 15 trends) →
  analyze_niche_opportunities self trends p = (Raises KeyError, p).
Proof.
  intros H%each_trend_text_Raises.
  unfold analyze_niche_opportunities, prog_bind, pure. by rewrite H.
Qed.

(** X18: whatever the trends, the prompt names each of the ten labels that
    the extractor looks for in the reply. *)
Theorem prompt_names_every_label formatted_trends :
  Forall (λ label, contains label (prompt_of formatted_trends) = true)
         field_labels.
Proof.
  assert (Forall (λ label, contains label prompt_tail = true) field_labels) as H
    by (repeat constructor).
  eapply Forall_impl; [exact H |]. intros label Hl. unfold prompt_of.
  apply (contains_append label (prompt_head +:+ formatted_trends) _ "") in Hl.
  by rewrite append_nil_r, append_assoc in Hl.
Qed.

(** ** The run *)

Section Run.

(** The encoding of the console. *)
Variable stdout_encodes : report_line → bool.

#[local] Abbreviation print_line := (print_line stdout_encodes).
#[local] Abbreviation print_top := (print_top stdout_encodes).
#[local] Abbreviation print_next_steps := (print_next_steps stdout_encodes).
#[local] Abbreviation save_and_report :=
  (save_and_report int_max_str_digits strftime_now execute_ok stdout_encodes).
#[local] Abbreviation run_daily_research :=
  (run_daily_research int_max_str_digits strftime_now execute_ok
     search_reply model_reply format_value stdout_encodes).

Lemma printed_printed a b p : printed b (printed a p) = printed (a ++ b) p.
Proof. unfold printed. cbn. by rewrite <-app_assoc. Qed.

Lemma prog_bind_say {A} l (f : unit → prog process A) p :
  prog_bind (say l) f p = f tt (printed [l] p).
Proof. done. Qed.

Lemma say_printed l p : say l p = (Returns tt, printed [l] p).
Proof. done. Qed.

(** A line that the console encodes is printed; another one raises and
    leaves the process as it was. *)
Lemma print_line_printed l p :
  stdout_encodes l = true → print_line l p = (Returns tt, printed [l] p).
Proof. intros H. unfold print_line. by rewrite H. Qed.

Lemma print_line_refused l p :
  stdout_encodes l = false → print_line l p = (Raises UnicodeEncodeError, p).
Proof. intros H. unfold print_line. by rewrite H. Qed.

Lemma prog_bind_print_line {A} l (f : unit → prog process A) p :
  stdout_encodes l = true →
  prog_bind (print_line l) f p = f tt (printed [l] p).
Proof. intros H. unfold prog_bind. by rewrite print_line_printed. Qed.

Lemma prog_bind_refused {A} l (f : unit → prog process A) p :
  stdout_encodes l = false →
  prog_bind (print_line l) f p = (Raises UnicodeEncodeError, p).
Proof. intros H. unfold prog_bind. by rewrite print_line_refused. Qed.

Lemma print_top_printed entry p :
  (∀ line, stdout_encodes line = true) →
  print_top entry p = (Returns tt, printed (top_lines entry) p).
Proof.
  intros Hutf. destruct entry as [i opp]. unfold print_top.
  rewrite !prog_bind_print_line by apply Hutf.
  rewrite print_line_printed, !printed_printed by apply Hutf. done.
Qed.

Lemma prog_for_print_top entries p :
  (∀ line, stdout_encodes line = true) →
  prog_for print_top entries p
  = (Returns tt, printed (entry ← entries; top_lines entry) p).
Proof.
  intros Hutf. revert p. induction entries as [|entry l IH]; intros p.
  - cbn. unfold printed. destruct p; cbn. by rewrite app_nil_r.
  - cbn [prog_for]. unfold prog_bind. rewrite print_top_printed, IH by done.
    by rewrite printed_printed.
Qed.

Lemma print_next_steps_printed p :
  (∀ line, stdout_encodes line = true) →
  print_next_steps p = (Returns tt, printed closing_lines p).
Proof.
  intros Hutf. unfold print_next_steps.
  rewrite !prog_bind_print_line by apply Hutf.
  by rewrite print_line_printed, !printed_printed by apply Hutf.
Qed.

Lemma list_truthy_false {A} (l : list A) : list_truthy l = false → l = [].
Proof. by destruct l. Qed.

(** Lines 251-281 when the extractor returns no record. *)
Lemma save_and_report_nothing self analysis p :
  (∀ line, stdout_encodes line = true) →
  extract_opportunities int_max_str_digits self analysis = Ok [] →
  save_and_report self analysis p
  = (Returns tt,
     printed ([ Extracting; Extracted 0; CouldNotExtract; RawAnalysis;
                Excerpt (slice_to 500 analysis +:+ "...") ] ++ closing_lines) p).
Proof.
  intros Hutf Hex. unfold save_and_report.
  rewrite prog_bind_print_line by apply Hutf.
  unfold prog_bind at 1, pure at 1. rewrite Hex. cbn [of_exc length].
  rewrite prog_bind_print_line by apply Hutf. cbn [list_truthy].
  unfold prog_bind at 1. rewrite !prog_bind_print_line by apply Hutf.
  rewrite print_line_printed by apply Hutf.
  rewrite print_next_steps_printed, !printed_printed by done. done.
Qed.

(** Lines 251-281 when the extractor returns records. *)
Lemma save_and_report_records self analysis p records :
  (∀ line, stdout_encodes line = true) →
  extract_opportunities int_max_str_digits self analysis = Ok records →
  records ≠ [] →
  ∃ w',
    save_to_sheets strftime_now execute_ok self records analysis (sheets p)
    = (Ok tt, w')
    ∧ save_and_report self analysis p
      = (Returns tt,
         printed ([ BlankThenRule; TopTitle; Rule ]
                  ++ (entry ← enumerate_from_1 (take 3 records); top_lines entry)
                  ++ closing_lines)
           {| sheets := w'; searches := searches p; sleeps := sleeps p;
              prompts := prompts p;
              stdout := stdout p ++ [ Extracting; Extracted (length records);
                                      SavingToSheets ] |}).
Proof.
  intros Hutf Hex Hne.
  destruct (save_to_sheets_returns strftime_now execute_ok self records
              analysis (sheets p)) as [w' Hsave].
  exists w'. split; [done |].
  unfold save_and_report. rewrite prog_bind_print_line by apply Hutf.
  unfold prog_bind at 1, pure at 1. rewrite Hex. cbn [of_exc].
  rewrite prog_bind_print_line by apply Hutf.
  destruct records as [|opp l]; [done |]. cbn [list_truthy].
  unfold prog_bind at 1. rewrite prog_bind_print_line by apply Hutf.
  unfold prog_bind at 1, on_sheets at 1. cbn [sheets printed].
  rewrite Hsave. cbn [of_exc]. rewrite !prog_bind_print_line by apply Hutf.
  rewrite prog_for_print_top, print_next_steps_printed, !printed_printed by done.
  unfold printed. cbn [sheets searches sleeps prompts stdout].
  by rewrite <-!app_assoc.
Qed.

Lemma find_trending_topics_Returns self p :
  ∃ trends p',
    find_trending_topics self p = (Returns trends, p')
    ∧ Forall has_trend_keys trends
    ∧ sheets p' = sheets p
    ∧ prompts p' = prompts p.
Proof.
  unfold find_trending_topics.
  destruct (key_truthy (serper_key self)); cbn [negb].
  - destruct (search_all_spec (default "" (serper_key self)) queries p [])
      as (added & errors & p' & -> & _ & Hkeys & Hsh & Hpr & _).
    by exists added, p'.
  - eexists [], _. split; [reflexivity |]. by cbn.
Qed.

(** The run up to the call of the collector. *)
Lemma run_unfold self p :
  (∀ line, stdout_encodes line = true) →
  run_daily_research self p
  = prog_bind (find_trending_topics self)
      (λ trends,
         print_line (FoundTrends (length trends)) ;>
         if negb (list_truthy trends) then print_line NoTrendsFound
         else
           print_line Analyzing ;>
           run* analysis := analyze_niche_opportunities self trends in
           save_and_report self analysis)
      (after_banner strftime_now p).
Proof.
  intros Hutf. unfold run_daily_research.
  rewrite !prog_bind_print_line by apply Hutf.
  unfold prog_bind at 1, on_sheets at 1, now at 1. cbn [of_exc].
  rewrite !prog_bind_print_line, !printed_printed by apply Hutf. f_equal.
  unfold printed, after_banner, banner_lines. cbn. by rewrite <-app_assoc.
Qed.

Lemma run_no_trends self p p2 :
  (∀ line, stdout_encodes line = true) →
  find_trending_topics self (after_banner strftime_now p) = (Returns [], p2) →
  run_daily_research self p
  = (Returns tt, printed [ FoundTrends 0; NoTrendsFound ] p2).
Proof.
  intros Hutf Hfind. rewrite run_unfold by done. unfold prog_bind at 1.
  rewrite Hfind. cbn [length list_truthy negb].
  rewrite prog_bind_print_line, print_line_printed by apply Hutf.
  by rewrite printed_printed.
Qed.

Lemma run_with_trends self p trends p2 analysis p3 :
  (∀ line, stdout_encodes line = true) →
  find_trending_topics self (after_banner strftime_now p) = (Returns trends, p2) →
  trends ≠ [] →
  analyze_niche_opportunities self trends
    (printed [ FoundTrends (length trends); Analyzing ] p2)
  = (Returns analysis, p3) →
  run_daily_research self p = save_and_report self analysis p3.
Proof.
  intros Hutf Hfind Hne Han. rewrite run_unfold by done. unfold prog_bind at 1.
  rewrite Hfind. destruct trends as [|t l]; [done |].
  cbn [list_truthy negb].
  rewrite !prog_bind_print_line, printed_printed by apply Hutf.
  unfold prog_bind at 1. cbn [app] in *. by rewrite Han.
Qed.

Lemma sentinel_gives_no_record self :
  extract_opportunities int_max_str_digits self "Analysis failed" = Ok [].
Proof. vm_compute. reflexivity. Qed.

(** What a run does to the prompts and to the log of the sink. *)
Lemma run_spec self p :
  (∀ line, stdout_encodes line = true) →
  ∃ p' new_prompts sent,
    run_daily_research self p = (Returns tt, p')
    ∧ prompts p' = prompts p ++ new_prompts
    ∧ length new_prompts ≤ 1
    ∧ appends (sheets p') = appends (sheets p) ++ sent
    ∧ length sent ≤ 2
    ∧ (new_prompts = [] → sent = [])
    ∧ ((∀ history prompt text rest,
          model_reply history prompt ≠ Some (TextBlock text :: rest)) →
       sent = []).
Proof.
  intros Hutf.
  destruct (find_trending_topics_Returns self (after_banner strftime_now p))
    as (trends & p2 & Hfind & Hkeys & Hsh2 & Hpr2).
  destruct trends as [|t l].
  { rewrite (run_no_trends _ _ _ Hutf Hfind). eexists _, [], [].
    split; [reflexivity |]. cbn. rewrite Hsh2, Hpr2, !app_nil_r. cbn.
    repeat split; auto. }
  destruct (each_trend_text_Returns (take 15 (t :: l))) as [texts Htexts];
    [by apply Forall_take |].
  destruct (analyze_spec self (t :: l)
              (printed [ FoundTrends (length (t :: l)); Analyzing ] p2)
              texts Htexts)
    as (analysis & p3 & Han & Hpr3 & Hsh3 & _ & _ & Hout3).
  rewrite (run_with_trends _ _ _ _ _ _ Hutf Hfind ltac:(done) Han).
  cbn [printed sheets prompts] in Hpr3, Hsh3.
  destruct (extract_opportunities_Ok int_max_str_digits self analysis)
    as [records Hex].
  destruct records as [|opp records].
  { rewrite (save_and_report_nothing _ _ _ Hutf Hex).
    eexists _, [_], []. split; [reflexivity |]. cbn [printed sheets prompts].
    rewrite Hpr3, Hpr2, Hsh3, Hsh2, app_nil_r. cbn.
    repeat split; auto. }
  destruct (save_and_report_records self analysis p3 (opp :: records) Hutf Hex)
    as (w' & Hsave & ->); [done |].
  destruct (save_to_sheets_sent strftime_now execute_ok self (opp :: records)
              analysis (sheets p3)) as (w'' & sent & Hsave' & Hlog & Hlen).
  rewrite Hsave in Hsave'. injection Hsave' as <-.
  eexists _, [_], sent. split; [reflexivity |]. cbn [printed sheets prompts].
  rewrite Hpr3, Hpr2, Hlog, Hsh3, Hsh2. cbn.
  split; [done |]. split; [lia |]. split; [done |]. split; [done |].
  split; [done |]. intros Hdown.
  destruct Hout3 as [(rest & Hreply & _) | [-> _]].
  - by destruct (Hdown _ _ _ _ Hreply).
  - by rewrite sentinel_gives_no_record in Hex.
Qed.

(** X19: on a console that encodes every line, a run always returns
    normally, whatever the three services do. It sends at most one prompt
    and adds at most two requests to the log of the sink, and none unless
    it sent a prompt. *)
Theorem run_returns_normally self p :
  (∀ line, stdout_encodes line = true) →
  ∃ p' new_prompts sent,
    run_daily_research self p = (Returns tt, p')
    ∧ prompts p' = prompts p ++ new_prompts
    ∧ length new_prompts ≤ 1
    ∧ appends (sheets p') = appends (sheets p) ++ sent
    ∧ length sent ≤ 2
    ∧ (new_prompts = [] → sent = []).
Proof.
  intros Hutf.
  destruct (run_spec self p Hutf)
    as (p' & new_prompts & sent & H1 & H2 & H3 & H4 & H5 & H6 & _).
  by exists p', new_prompts, sent.
Qed.

(** X20: on a console that encodes every line, when no reply of the model
    begins with a block of text (the request raises, the content is empty
    or its first block is of another kind), the run returns normally and
    sends nothing to the spreadsheet. *)
Theorem failed_analysis_saves_nothing self p :
  (∀ line, stdout_encodes line = true) →
  (∀ history prompt text rest,
     model_reply history prompt ≠ Some (TextBlock text :: rest)) →
  ∃ p',
    run_daily_research self p = (Returns tt, p')
    ∧ appends (sheets p') = appends (sheets p).
Proof.
  intros Hutf Hdown.
  destruct (run_spec self p Hutf)
    as (p' & new_prompts & sent & H1 & _ & _ & H4 & _ & _ & H7).
  exists p'. split; [done |]. by rewrite H4, (H7 Hdown), app_nil_r.
Qed.

(** X21: on a console that encodes every line, without a key for the
    search service the run reads the clock, prints its first lines, the
    notice of the collector, a count of zero and its warning, and stops:
    no request of any kind, no pause, and none of the closing lines. *)
Theorem run_without_key self p :
  (∀ line, stdout_encodes line = true) →
  key_truthy (serper_key self) = false →
  run_daily_research self p
  = (Returns tt,
     {| sheets := {| clock_reads := S (clock_reads (sheets p));
                     appends := appends (sheets p);
                     console := console (sheets p) |};
        searches := searches p; sleeps := sleeps p; prompts := prompts p;
        stdout := stdout p
                  ++ banner_lines (strftime_now (clock_reads (sheets p)))
                  ++ [ NoSerperKey; FoundTrends 0; NoTrendsFound ] |}).
Proof.
  intros Hutf Hkey.
  rewrite (run_no_trends self p
             (printed [NoSerperKey] (after_banner strftime_now p)) Hutf).
  - unfold printed, after_banner. cbn. by rewrite <-!app_assoc.
  - unfold find_trending_topics. by rewrite Hkey.
Qed.

(** X22: on a console that encodes every line, when the extractor finds
    records in the analysis, lines 251-281 save them and print, apart from
    what the sink prints, the summary of the first three records, in the
    order of extraction and numbered from one, between the heading and the
    closing lines; nothing is searched and no prompt is sent. *)
Theorem summary_shows_first_three self analysis p records :
  (∀ line, stdout_encodes line = true) →
  extract_opportunities int_max_str_digits self analysis = Ok records →
  records ≠ [] →
  ∃ p',
    save_and_report self analysis p = (Returns tt, p')
    ∧ stdout p'
      = stdout p
        ++ [ Extracting; Extracted (length records); SavingToSheets;
             BlankThenRule; TopTitle; Rule ]
        ++ (entry ← enumerate_from_1 (take 3 records); top_lines entry)
        ++ closing_lines
    ∧ searches p' = searches p
    ∧ prompts p' = prompts p.
Proof.
  intros Hutf Hex Hne.
  destruct (save_and_report_records self analysis p records Hutf Hex Hne)
    as (w' & _ & ->).
  eexists. split; [reflexivity |]. cbn. by rewrite <-!app_assoc.
Qed.

(** X23: on a console that encodes every line, when the extractor finds no
    record in the analysis, lines 251-281 leave the sink alone and print
    the first five hundred characters of the analysis followed by three
    dots. *)
Theorem no_record_prints_excerpt self analysis p :
  (∀ line, stdout_encodes line = true) →
  extract_opportunities int_max_str_digits self analysis = Ok [] →
  ∃ p',
    save_and_report self analysis p = (Returns tt, p')
    ∧ sheets p' = sheets p
    ∧ stdout p'
      = stdout p
        ++ [ Extracting; Extracted 0; CouldNotExtract; RawAnalysis;
             Excerpt (slice_to 500 analysis +:+ "...") ]
        ++ closing_lines.
Proof.
  intros Hutf Hex. rewrite (save_and_report_nothing _ _ _ Hutf Hex).
  eexists. split; [reflexivity |]. by cbn.
Qed.

(** X24: on a console that encodes the rule of line 234 but not the title
    of line 235, the run raises a [UnicodeEncodeError] at the title: the
    rule is all it printed, the clock is not read and no request is
    sent. *)
Theorem title_refused_stops_the_run self p :
  stdout_encodes Rule = true →
  stdout_encodes Title = false →
  run_daily_research self p = (Raises UnicodeEncodeError, printed [Rule] p).
Proof.
  intros Hrule Htitle. unfold run_daily_research.
  rewrite prog_bind_print_line by done. by rewrite prog_bind_refused.
Qed.

End Run.

End PipelineFacts.

(** * Closed instances *)

(** C3 as stated fails: with a spreadsheet configured and no record the
    sink sends nothing, so no row of the analysis; and when the request for
    the rows is refused, that request is the only one sent. *)
Lemma audit_row_not_independent :
  sheet_id bot ≠ ""
  ∧ appends (save_to_sheets frozen_clock accept_all bot []
               "raw analysis" fresh_world).2 = []
  ∧ appends (save_to_sheets frozen_clock reject_all bot
               [ {[ "niche" := VStr "Cat Dads" ]} ]
               "raw analysis" fresh_world).2
    = [ ({| call_spreadsheet := "sheet-1";
            call_range := "Opportunities!A:M";
            call_values :=
              [[ VStr "2025-06-01 09:00:00"; VStr "Cat Dads"; VStr ""; VStr "";
                 VStr ""; VInt 5; VStr "Medium"; VStr ""; VStr ""; VStr "";
                 VStr ""; VStr "Not started"; VStr "" ]] |}, false) ].
Proof. split; [done |]. split; vm_compute; reflexivity. Qed.

Lemma audit_row_follows_accepted_rows_witness :
  ∃ rows accepted w',
    save_to_sheets frozen_clock only_sheet_1 bot
      [ {[ "niche" := VStr "Cat Dads" ]} ] "raw analysis" fresh_world
    = (Ok tt, w')
    ∧ length rows = 1
    ∧ appends w'
      = [ ({| call_spreadsheet := "sheet-1";
              call_range := "Opportunities!A:M";
              call_values := rows |}, true);
          ({| call_spreadsheet := "sheet-1";
              call_range := "Analysis!A:B";
              call_values :=
                [[ VStr "2025-06-01 09:00:00"; VStr "raw analysis" ]] |},
           accepted) ].
Proof.
  apply (audit_row_follows_accepted_rows frozen_clock only_sheet_1 bot
           [ {[ "niche" := VStr "Cat Dads" ]} ] "raw analysis" fresh_world).
  - discriminate.
  - discriminate.
  - reflexivity.
Defined.

Lemma nothing_to_save_witness :
  save_to_sheets frozen_clock accept_all bot [] "raw analysis" fresh_world
  = (Ok tt, {| clock_reads := 0; appends := [];
               console := [NoOpportunitiesToSave] |}).
Proof.
  apply (nothing_to_save frozen_clock accept_all bot [] "raw analysis" fresh_world).
  right. reflexivity.
Defined.

(** C4 as stated fails: when the label comes back before the line break,
    the text read stops at its second occurrence; and the text before the
    slash is stripped once more before [int] reads it, which matters for
    the separators that [int] does not skip. *)
Lemma demand_score_not_the_stated_recipe :
  contains "DEMAND SCORE:" twice_scored_line = true
  ∧ demand_score 4300 twice_scored_line = Ok (VInt 7)
  ∧ spec_demand_score 4300 twice_scored_line = 5%Z
  ∧ contains "DEMAND SCORE:" separated_score_line = true
  ∧ demand_score 4300 separated_score_line = Ok (VInt 7)
  ∧ spec_demand_score 4300 separated_score_line = 5%Z.
Proof. repeat split; vm_compute; reflexivity. Qed.

Lemma demand_score_parsing_witness :
  contains "DEMAND SCORE:" scored_section = true
  ∧ before LF (before "DEMAND SCORE:" (after "DEMAND SCORE:" scored_section))
    = " 8/10 (hot)"
  ∧ demand_score 4300 scored_section = Ok (VInt 8).
Proof.
  split; [vm_compute; reflexivity |]. split; [vm_compute; reflexivity |].
  exact (proj1 (proj2 (proj2 (demand_score_parsing 4300)))
           scored_section eq_refl).
Defined.

Lemma no_labels_no_records_witness :
  Forall (λ label, contains label unlabelled_text = false) field_labels
  ∧ extract_opportunities 4300 bot unlabelled_text = Ok [].
Proof.
  assert (Forall (λ label, contains label unlabelled_text = false) field_labels)
    as H by (repeat constructor).
  split; [exact H |].
  exact (proj2 (no_labels_no_records 4300 bot unlabelled_text) H).
Defined.

Lemma leading_fields_form_a_record_witness :
  ∃ others,
    records_of 4300 [ "NICHE NAME: Retro Arcade"; "COMPETITION: Low" ] = Ok others
    ∧ extract_opportunities 4300 bot
        (paragraphs [ "TARGET AUDIENCE: Gamers"; "PRODUCTS: mug";
                      "NICHE NAME: Retro Arcade"; "COMPETITION: Low" ])
      = Ok ({[ "audience" := VStr "Gamers"; "products" := VStr "mug" ]} :: others).
Proof.
  apply (leading_fields_form_a_record 4300 bot _
           [ "TARGET AUDIENCE: Gamers"; "PRODUCTS: mug" ]
           [ "NICHE NAME: Retro Arcade"; "COMPETITION: Low" ]).
  - vm_compute. reflexivity.
  - repeat constructor.
  - vm_compute. reflexivity.
  - vm_compute. reflexivity.
  - vm_compute. reflexivity.
Defined.





(** ** Closed instances of the further facts *)

Lemma records_split_at_boundary_witness :
  ∃ earlier later,
    records_of 4300 [ "PRODUCTS: mug" ] = Ok earlier
    ∧ records_of 4300 [ "NICHE NAME: Cat Dads"; "COMPETITION: Low" ] = Ok later
    ∧ records_of 4300
        ([ "PRODUCTS: mug" ] ++ [ "NICHE NAME: Cat Dads"; "COMPETITION: Low" ])
      = Ok (earlier ++ later).
Proof.
  apply (records_split_at_boundary 4300 [ "PRODUCTS: mug" ]
           "NICHE NAME: Cat Dads" [ "COMPETITION: Low" ]).
  vm_compute. reflexivity.
Defined.

Lemma boundary_run_forms_one_record_witness :
  ∃ earlier later,
    records_of 4300 [ "PRODUCTS: mug" ] = Ok earlier
    ∧ records_of 4300 [ "NICHE NAME: Dog Moms" ] = Ok later
    ∧ records_of 4300
        ([ "PRODUCTS: mug" ]
         ++ "NICHE NAME: Cat Dads" :: [ "COMPETITION: Low" ]
         ++ [ "NICHE NAME: Dog Moms" ])
      = Ok (earlier
            ++ {[ "niche" := VStr "Cat Dads"; "competition" := VStr "Low" ]}
            :: later).
Proof.
  apply (boundary_run_forms_one_record 4300 [ "PRODUCTS: mug" ]
           "NICHE NAME: Cat Dads" [ "COMPETITION: Low" ]
           [ "NICHE NAME: Dog Moms" ]).
  - vm_compute. reflexivity.
  - repeat constructor.
  - vm_compute. reflexivity.
  - vm_compute. reflexivity.
  - vm_compute. reflexivity.
Defined.

Lemma rows_follow_records_witness :
  ∃ rows accepted rest w',
    save_to_sheets frozen_clock accept_all bot
      [ {[ "niche" := VStr "Cat Dads" ]} ] "raw analysis" fresh_world
    = (Ok tt, w')
    ∧ appends w' = appends fresh_world ++ (rows_call bot rows, accepted) :: rest
    ∧ length rows = 1
    ∧ ∀ i opp, [ ({[ "niche" := VStr "Cat Dads" ]} : gmap string pyval) ] !! i
               = Some opp →
        rows !! i
        = Some (row_cells (frozen_clock (clock_reads fresh_world + i)) opp).
Proof.
  apply (rows_follow_records frozen_clock accept_all bot
           [ {[ "niche" := VStr "Cat Dads" ]} ] "raw analysis" fresh_world).
  - discriminate.
  - discriminate.
Defined.

Lemma extracted_rows_are_typed_witness :
  ∃ rows accepted rest w',
    save_to_sheets frozen_clock accept_all bot
      [ {[ "niche" := VStr "Cat Dads" ]} ] "raw analysis" fresh_world
    = (Ok tt, w')
    ∧ appends w' = appends fresh_world ++ (rows_call bot rows, accepted) :: rest
    ∧ Forall row_typed rows.
Proof.
  apply (extracted_rows_are_typed 4300 frozen_clock accept_all bot
           "NICHE NAME: Cat Dads" "raw analysis" fresh_world
           [ {[ "niche" := VStr "Cat Dads" ]} ]).
  - vm_compute. reflexivity.
  - discriminate.
  - discriminate.
Defined.

Lemma collector_without_key_witness :
  find_trending_topics steady_search bot fresh_process
  = (Returns [],
     {| sheets := fresh_world; searches := []; sleeps := 0; prompts := [];
        stdout := [NoSerperKey] |}).
Proof.
  apply (collector_without_key steady_search bot fresh_process). reflexivity.
Defined.

Lemma collector_sends_six_requests_witness :
  ∃ key trends errors p',
    serper_key keyed_bot = Some key
    ∧ find_trending_topics ragged_search keyed_bot fresh_process
      = (Returns trends, p')
    ∧ searches p'
      = searches fresh_process
        ++ ((λ q, {| search_key := key; search_query := q |}) <$> queries)
    ∧ stdout p' = stdout fresh_process ++ replicate errors ErrorFindingTrends
    ∧ sleeps p' + errors = sleeps fresh_process + 6
    ∧ sheets p' = sheets fresh_process
    ∧ prompts p' = prompts fresh_process.
Proof.
  apply (collector_sends_six_requests ragged_search keyed_bot fresh_process).
  reflexivity.
Defined.

Lemma partial_results_are_kept_witness :
  ∃ p',
    search_one ragged_search "key-1" "viral quotes 2025" (fresh_process, [])
    = (Returns tt, (p', [] ++ [cat_memes]))
    ∧ sleeps p' = sleeps fresh_process
    ∧ stdout p' = stdout fresh_process ++ [ErrorFindingTrends].
Proof.
  apply (partial_results_are_kept ragged_search "key-1" "viral quotes 2025"
           ragged_reply [ JDict (result "Cat memes") ] (JStr "advert")
           [ JDict (result "Dog memes") ] [cat_memes] fresh_process []).
  - reflexivity.
  - vm_compute. reflexivity.
  - simpl. lia.
  - vm_compute. reflexivity.
  - intros items. discriminate.
Defined.

Lemma collector_takes_three_per_query_witness :
  ∃ trends p',
    find_trending_topics steady_search keyed_bot fresh_process
    = (Returns trends, p')
    ∧ each trend_of (q ← queries; JDict <$> take 3 (four_results q))
      = Returns trends
    ∧ sleeps p' = sleeps fresh_process + 6
    ∧ stdout p' = stdout fresh_process.
Proof.
  apply (collector_takes_three_per_query steady_search keyed_bot "key-1"
           four_results fresh_process).
  - reflexivity.
  - reflexivity.
  - intros history call. eexists. split; reflexivity.
Defined.

Lemma analyzer_returns_reply_or_sentinel_witness :
  ∃ texts text p',
    each (trend_text plain_format) (take 15 [cat_memes]) = Returns texts
    ∧ analyze_niche_opportunities steady_model plain_format keyed_bot
        [cat_memes] fresh_process
      = (Returns text, p')
    ∧ prompts p'
      = prompts fresh_process
        ++ [prompt_of (String.concat (Py.LF +:+ Py.LF) texts)]
    ∧ sheets p' = sheets fresh_process
    ∧ searches p' = searches fresh_process
    ∧ ((∃ rest, steady_model (prompts fresh_process)
                  (prompt_of (String.concat (Py.LF +:+ Py.LF) texts))
                = Some (TextBlock text :: rest)
                ∧ stdout p' = stdout fresh_process)
       ∨ (text = "Analysis failed"
          ∧ stdout p' = stdout fresh_process ++ [ErrorWithClaude])).
Proof.
  apply (analyzer_returns_reply_or_sentinel steady_model plain_format keyed_bot
           [cat_memes] fresh_process).
  repeat constructor.
Defined.

Lemma analyzer_raises_on_missing_key_witness :
  analyze_niche_opportunities steady_model plain_format keyed_bot
    [ cat_memes; {[ "title" := JStr "Dog memes" ]} ] fresh_process
  = (Raises KeyError, fresh_process).
Proof.
  apply (analyzer_raises_on_missing_key steady_model plain_format keyed_bot
           [ cat_memes; {[ "title" := JStr "Dog memes" ]} ] fresh_process).
  apply Exists_cons_tl, Exists_cons_hd. right. vm_compute. reflexivity.
Defined.

Lemma run_returns_normally_witness :
  ∃ p' new_prompts sent,
    run_daily_research 4300 frozen_clock accept_all steady_search steady_model
      plain_format utf8_console keyed_bot fresh_process
    = (Returns tt, p')
    ∧ prompts p' = prompts fresh_process ++ new_prompts
    ∧ length new_prompts ≤ 1
    ∧ appends (sheets p') = appends (sheets fresh_process) ++ sent
    ∧ length sent ≤ 2
    ∧ (new_prompts = [] → sent = []).
Proof.
  apply (run_returns_normally 4300 frozen_clock accept_all steady_search
           steady_model plain_format utf8_console keyed_bot fresh_process).
  intros line. reflexivity.
Defined.

Lemma failed_analysis_saves_nothing_witness :
  ∃ p',
    run_daily_research 4300 frozen_clock accept_all steady_search silent_model
      plain_format utf8_console keyed_bot fresh_process
    = (Returns tt, p')
    ∧ appends (sheets p') = appends (sheets fresh_process).
Proof.
  apply (failed_analysis_saves_nothing 4300 frozen_clock accept_all
           steady_search silent_model plain_format utf8_console keyed_bot
           fresh_process).
  - intros line. reflexivity.
  - intros history prompt text rest. discriminate.
Defined.

Lemma run_without_key_witness :
  run_daily_research 4300 frozen_clock accept_all steady_search steady_model
    plain_format utf8_console bot fresh_process
  = (Returns tt,
     {| sheets := {| clock_reads := 1; appends := []; console := [] |};
        searches := []; sleeps := 0; prompts := [];
        stdout := banner_lines "2025-06-01 09:00:00"
                  ++ [ NoSerperKey; FoundTrends 0; NoTrendsFound ] |}).
Proof.
  apply (run_without_key 4300 frozen_clock accept_all steady_search
           steady_model plain_format utf8_console bot fresh_process).
  - intros line. reflexivity.
  - reflexivity.
Defined.

Lemma summary_shows_first_three_witness :
  ∃ p',
    save_and_report 4300 frozen_clock accept_all utf8_console bot four_niches
      fresh_process
    = (Returns tt, p')
    ∧ stdout p'
      = stdout fresh_process
        ++ [ Extracting; Extracted 4; SavingToSheets; BlankThenRule; TopTitle;
             Rule ]
        ++ (top_lines (1, {[ "niche" := VStr "Cat Dads" ]})
            ++ top_lines (2, {[ "niche" := VStr "Dog Moms" ]})
            ++ top_lines (3, {[ "niche" := VStr "Plant Parents" ]}))
        ++ closing_lines
    ∧ searches p' = searches fresh_process
    ∧ prompts p' = prompts fresh_process.
Proof.
  apply (summary_shows_first_three 4300 frozen_clock accept_all utf8_console
           bot four_niches fresh_process
           [ {[ "niche" := VStr "Cat Dads" ]};
             {[ "niche" := VStr "Dog Moms" ]};
             {[ "niche" := VStr "Plant Parents" ]};
             {[ "niche" := VStr "Night Nurses" ]} ]).
  - intros line. reflexivity.
  - vm_compute. reflexivity.
  - discriminate.
Defined.

Lemma no_record_prints_excerpt_witness :
  500 < String.length long_unlabelled_text
  ∧ ∃ p',
      save_and_report 4300 frozen_clock accept_all utf8_console bot
        long_unlabelled_text fresh_process
      = (Returns tt, p')
      ∧ sheets p' = sheets fresh_process
      ∧ stdout p'
        = stdout fresh_process
          ++ [ Extracting; Extracted 0; CouldNotExtract; RawAnalysis;
               Excerpt (Py.slice_to 500 long_unlabelled_text +:+ "...") ]
          ++ closing_lines.
Proof.
  split; [vm_compute; lia |].
  apply (no_record_prints_excerpt 4300 frozen_clock accept_all utf8_console
           bot long_unlabelled_text fresh_process).
  - intros line. reflexivity.
  - vm_compute. reflexivity.
Defined.

Lemma title_refused_stops_the_run_witness :
  run_daily_research 4300 frozen_clock accept_all steady_search steady_model
    plain_format ascii_console keyed_bot fresh_process
  = (Raises UnicodeEncodeError,
     {| sheets := fresh_world; searches := []; sleeps := 0; prompts := [];
        stdout := [Rule] |}).
Proof.
  apply (title_refused_stops_the_run 4300 frozen_clock accept_all
           steady_search steady_model plain_format ascii_console keyed_bot
           fresh_process).
  - reflexivity.
  - reflexivity.
Defined.
